(** * Egress validation on GCP: the lifecycle controller of
    [pkg/cloudclient/gcp/private.go]

    The file embeds the controller the way it is written: the calls to the
    compute control plane are answered by a scripted [Cloud], the client's
    mutable [output], the call trace and the (virtual) clock live in a
    [World] that is threaded through a small state-and-panic monad, and the
    three regular expressions of [findUnreachableEndpoints] are given by the
    string functions they denote. *)

From Stdlib Require Import ZArith Ascii String List Bool Lia.
From stdpp Require Import base option list strings pretty gmap.

Local Open Scope Z_scope.
Local Open Scope string_scope.
Local Open Scope list_scope.

(** ** Text primitives

    Go strings are byte strings; [string] (a list of [ascii]) is used as
    such. *)

Module Text.

Definition LF : ascii := Ascii.ascii_of_nat 10.
Definition DQ : ascii := Ascii.ascii_of_nat 34.
Definition BSL : ascii := Ascii.ascii_of_nat 92.

(** [strings.Contains]: some suffix of [s] starts with [needle]. *)
Fixpoint contains (needle s : string) : bool :=
  String.prefix needle s
  || match s with
     | EmptyString => false
     | String _ s' => contains needle s'
     end.

(** The lines of a text: the maximal runs without a line feed. *)
Fixpoint lines_go (cur : string) (s : string) : list string :=
  match s with
  | EmptyString => [String.rev cur]
  | String c s' =>
      if Ascii.eqb c LF then String.rev cur :: lines_go EmptyString s'
      else lines_go (String c cur) s'
  end.

Definition lines (s : string) : list string := lines_go EmptyString s.

(** RE2's [\s] is exactly tab, line feed, form feed, carriage return and
    space; [\S] is its complement. *)
Definition isSpace (c : ascii) : bool :=
  let n := Ascii.nat_of_ascii c in
  (n =? 9)%nat || (n =? 10)%nat || (n =? 12)%nat || (n =? 13)%nat
  || (n =? 32)%nat.

(** The longest prefix of non-space bytes, and what follows it. *)
Fixpoint spanNonSpace (s : string) : string * string :=
  match s with
  | EmptyString => (EmptyString, EmptyString)
  | String c s' =>
      if isSpace c then (EmptyString, s)
      else let '(tok, rest) := spanNonSpace s' in (String c tok, rest)
  end.

(** [dropPrefix p s] is what follows [p] in [s] when [s] starts with [p]. *)
Fixpoint dropPrefix (p s : string) : option string :=
  match p, s with
  | EmptyString, _ => Some s
  | String a p', String b s' =>
      if Ascii.eqb a b then dropPrefix p' s' else None
  | String _ _, EmptyString => None
  end.

End Text.

(** ** The three regular expressions of [findUnreachableEndpoints]

    Each pattern is given by the function Go's [regexp] computes for it. *)

Module Regexp.
Import Text.

(** [reUnreachableErrors.FindAllString(s, -1)] for the pattern
    [Unable to reach (\S+)]: the successive leftmost matches, which do not
    overlap; [\S+] is greedy, so a match runs up to the next space byte.
    [FindAllString] returns whole matches, the capture group is not used.
    [skip] counts the bytes of [s] that the previous match still covers. *)
Definition unreachablePrefix : string := "Unable to reach ".

Fixpoint findAllUnreachable_go (skip : nat) (s : string) : list string :=
  match s with
  | EmptyString => []
  | String _ s' =>
      match skip with
      | S k => findAllUnreachable_go k s'
      | O =>
          match dropPrefix unreachablePrefix s with
          | Some rest =>
              let '(tok, _) := spanNonSpace rest in
              match tok with
              | EmptyString => findAllUnreachable_go O s'
              | String _ _ =>
                  (unreachablePrefix +:+ tok)
                    :: findAllUnreachable_go
                         (String.length unreachablePrefix
                          + String.length tok - 1)%nat s'
              end
          | None => findAllUnreachable_go O s'
          end
      end
  end.

Definition findAllUnreachable (s : string) : list string :=
  findAllUnreachable_go O s.

(** [rgx.FindAllStringSubmatch(s, -1)] for the pattern of line 274: in
    multi-line mode, the alternation of four groups, each one of the words
    below between two greedy dot-stars, the first group preceded by [^].
    A dot does not match a line feed, so a match lies within one line; in
    a line that contains one of the four words the leftmost match starts
    at the start of the line (where [^] holds too) and, the dot-stars
    being greedy, covers the whole line. So there is one match per such
    line, and none in the other lines. *)
Definition failureIndicators : list string :=
  ["Cannot"; "Could not"; "Failed"; "command not found"].

Definition isFailureLine (l : string) : bool :=
  existsb (fun w => contains w l) failureIndicators.

Definition findAllFailureLines (s : string) : list string :=
  List.filter isFailureLine (lines s).

(** [re.FindString(s)] for a pattern without metacharacters: the pattern
    itself when it occurs in [s], the empty string otherwise. *)
Definition findLiteral (pat s : string) : string :=
  if contains pat s then pat else EmptyString.

End Regexp.

Module GoFmt.
Import Text.

Definition hexDigit (n : nat) : ascii :=
  Ascii.ascii_of_nat (if (n <? 10)%nat then 48 + n else 87 + n).

(** One byte of a string under [strconv.Quote]. Bytes from 128 on are
    written [\xHH], which is what Go does for bytes that are not part of a
    valid UTF-8 sequence (it copies printable runes beyond ASCII as they
    are; no pattern searched for below has such a byte). *)
Definition quoteByte (c : ascii) : string :=
  let n := Ascii.nat_of_ascii c in
  let esc (x : string) := String BSL x in
  if (n =? 34)%nat then esc (String DQ EmptyString)
  else if (n =? 92)%nat then esc (String BSL EmptyString)
  else if (32 <=? n)%nat && (n <=? 126)%nat then String c EmptyString
  else if (n =? 7)%nat then esc "a"
  else if (n =? 8)%nat then esc "b"
  else if (n =? 12)%nat then esc "f"
  else if (n =? 10)%nat then esc "n"
  else if (n =? 13)%nat then esc "r"
  else if (n =? 9)%nat then esc "t"
  else if (n =? 11)%nat then esc "v"
  else esc (String "x" (String (hexDigit (n / 16))
                          (String (hexDigit (n mod 16)) EmptyString))).

Fixpoint quoteBody (s : string) : string :=
  match s with
  | EmptyString => EmptyString
  | String c s' => quoteByte c +:+ quoteBody s'
  end.

(** [%#v] of a string: a double-quoted Go literal. *)
Definition quote (s : string) : string :=
  String DQ (quoteBody s +:+ String DQ EmptyString).

Definition joinComma (l : list string) : string :=
  String.concat ", " l.

(** [%#v] of a [[]string]; [None] is the nil slice. *)
Definition sharpStrings (l : option (list string)) : string :=
  match l with
  | None => "[]string(nil)"
  | Some xs => "[]string{" +:+ joinComma (List.map quote xs) +:+ "}"
  end.

(** [%#v] of an [http.Header] (a [map[string][]string], printed in key
    order); [None] is the nil map. *)
Definition sharpHeader (h : option (list (string * option (list string))))
  : string :=
  match h with
  | None => "http.Header(nil)"
  | Some kvs =>
      "http.Header{"
      +:+ joinComma
            (List.map (fun kv => quote (fst kv) +:+ ":" +:+ sharpStrings (snd kv))
               kvs)
      +:+ "}"
  end.

End GoFmt.

(** ** Errors, the result object and the compute API *)

(** The error values the controller builds or receives; each constructor is
    one [fmt.Errorf] format (or one error source) of the Go code. *)
#[warnings="-register-all"] Inductive Error : Type :=
| ApiError (code : Z) (message : string)
    (* an error returned by a call to the compute service *)
| ErrUnableToCreateInstance (cause : Error)
    (* line 140: unable to create instance: %v %v *)
| ErrUnableToCreateLabels (cause : Error)
    (* line 162: Unable to create labels: %v %v *)
| ErrStatus (status : string)
    (* line 192: fmt.Errorf(status) *)
| ErrAlreadyExists (instanceName : string) (cause : option Error)
    (* line 212: Instance %s already exists with %v state. Please run again *)
| ErrMissingPermissions (cause : option Error)
    (* line 215: missing required permissions for account: %v *)
| ErrPollTimeout
    (* helpers.PollImmediate: the deadline elapsed *)
| EgressURLError (message : string).
    (* handledErrors.NewEgressURLError *)

(** Modelled from the spec: [pkg/output] is not under src/. The result
    "accumulates zero or more classified failures (kind + human message) and
    zero or more unreachable-endpoint strings", append-only during a run.
    The kind of a failure is the method that filed it ([AddError] for the
    errors of the process, [AddException] for the failures read from the
    console) together with its [Error] constructor; a nil error is no
    failure and records nothing. *)
Record Output : Type := mkOutput {
  failures : list string;      (* unreachable endpoints, SetEgressFailures *)
  exceptions : list Error;     (* AddException *)
  errors : list Error          (* AddError *)
}.

(** Modelled from the spec: [Output.AddError] files an error of the process;
    "absence of recorded failures is the success signal", so nil files
    nothing. *)
Definition Output_AddError (err : option Error) (o : Output) : Output :=
  match err with
  | Some e => mkOutput (failures o) (exceptions o) (errors o ++ [e])
  | None => o
  end.

(** Modelled from the spec: [Output.AddException] files one classified
    failure. *)
Definition Output_AddException (e : Error) (o : Output) : Output :=
  mkOutput (failures o) (exceptions o ++ [e]) (errors o).

(** Modelled from the spec: [Output.SetEgressFailures] files the strings it
    is given as unreachable endpoints, in their order. *)
Definition Output_SetEgressFailures (fs : list string) (o : Output) : Output :=
  mkOutput (failures o ++ fs) (exceptions o) (errors o).

(** [computev1.Instance], the two fields the controller reads. *)
Record Instance : Type := mkInstance {
  Status : string;
  LabelFingerprint : string
}.

(** [computev1.SerialPortOutput] with its embedded
    [googleapi.ServerResponse]. *)
Record SerialPortOutput : Type := mkSerialPortOutput {
  Contents : string;
  Kind : string;
  Next : Z;
  SelfLink : string;
  Start : Z;
  HTTPStatusCode : Z;
  Header : option (list (string * option (list string)));
  ForceSendFields : option (list string);
  NullFields : option (list string)
}.

(** [fmt.Sprintf("%#v", output)] for [output : *computev1.SerialPortOutput]:
    the Go-syntax rendering of the whole struct behind the pointer. It is
    this text, not [Contents], that line 251 calls [scriptOutput]. *)
Definition Sprintf_sharp_v (o : SerialPortOutput) : string :=
  "&compute.SerialPortOutput{Contents:" +:+ GoFmt.quote (Contents o)
  +:+ ", Kind:" +:+ GoFmt.quote (Kind o)
  +:+ ", Next:" +:+ pretty (Next o)
  +:+ ", SelfLink:" +:+ GoFmt.quote (SelfLink o)
  +:+ ", Start:" +:+ pretty (Start o)
  +:+ ", ServerResponse:googleapi.ServerResponse{HTTPStatusCode:"
  +:+ pretty (HTTPStatusCode o)
  +:+ ", Header:" +:+ GoFmt.sharpHeader (Header o)
  +:+ "}, ForceSendFields:" +:+ GoFmt.sharpStrings (ForceSendFields o)
  +:+ ", NullFields:" +:+ GoFmt.sharpStrings (NullFields o)
  +:+ "}".

(** The [computev1.Instance] request of lines 104-135. *)
Record InstanceRequest : Type := mkInstanceRequest {
  reqName : string;
  reqMachineType : string;
  reqDiskSizeGb : Z;
  reqSourceImage : string;
  reqAutoDelete : bool;
  reqBoot : bool;
  reqDiskType : string;
  reqNetworkName : string;
  reqSubnetwork : string;
  reqUserData : string           (* metadata item user-data *)
}.

(** What the controller does to the outside world, in order. *)
Inductive Call : Type :=
| Insert (req : InstanceRequest)
| Get (instanceName : string)
| SetLabels (instanceName fingerprint : string) (labels : gmap string string)
| GetSerialPortOutput (instanceName : string)
| Stop (instanceName : string)
| Sleep (d : Z).

(** The answers of the compute service in one run. [Do] returns a nil
    response together with every error, hence the sums. [Instances.Get] and
    [GetSerialPortOutput] are called repeatedly: their answer depends on how
    many calls of the same method came before. *)
Record Cloud : Type := mkCloud {
  insertErr : option Error;
  getResp : nat -> Error + Instance;
  setLabelsErr : option Error;
  serialResp : nat -> Error + option SerialPortOutput;
  stopErr : option Error
}.

(** What the run takes from the Go runtime and from packages that are not
    under src/: the template constant, [os.Expand], [time.Duration.String],
    the standard base64 encoding, [rand.Intn(10000)] and [os.Getenv]. *)
Record Runtime : Type := mkRuntime {
  helpers_UserdataTemplate : string;
  os_Expand : string -> (string -> string) -> string;
  Duration_String : Z -> string;
  base64_EncodeToString : string -> string;
  rand_Intn_10000 : Z;
  os_Getenv : string -> string
}.

Record ProxyConfig : Type := mkProxyConfig {
  HttpProxy : string;
  HttpsProxy : string;
  Cacert : string;
  NoTls : bool
}.

(** The [Client] fields the controller reads; [c.output] lives in the
    [World] because the controller mutates it. *)
Record Client : Type := mkClient {
  projectID : string;
  region : string;
  zone : string;
  instanceType : string;
  tags : gmap string string
}.

Record createComputeServiceInstanceInput : Type := mkInput {
  ContOptImageID : string;
  vpcSubnetID : string;
  userdata : string;
  inputZone : string;
  machineType : string;
  instanceName : string;
  sourceImage : string;
  networkName : string
}.

(** [time.Duration] counts nanoseconds. *)
Definition Second : Z := 1000000000.
Definition Minute : Z := 60 * Second.

(** ** The world and the monad of the controller *)

Record World : Type := mkWorld {
  output : Output;          (* c.output *)
  calls : list Call         (* oldest first *)
}.

(** A Go function either returns or panics. *)
Inductive Outcome (A : Type) : Type :=
| Returns (a : A) (w : World)
| Panics (w : World).
Arguments Returns {A} a w.
Arguments Panics {A} w.

Definition M (A : Type) : Type := World -> Outcome A.

#[global] Instance M_ret : MRet M := fun A a w => Returns a w.
#[global] Instance M_bind : MBind M := fun A B f m w =>
  match m w with
  | Returns a w' => f a w'
  | Panics w' => Panics w'
  end.

Definition panic {A : Type} : M A := fun w => Panics w.

Definition record (c : Call) : M unit :=
  fun w => Returns tt (mkWorld (output w) (calls w ++ [c])).

Definition updateOutput (f : Output -> Output) : M unit :=
  fun w => Returns tt (mkWorld (f (output w)) (calls w)).

Definition readOutput : M Output := fun w => Returns (output w) w.

Definition isGet (c : Call) : bool :=
  match c with Get _ => true | _ => false end.
Definition isGetSerialPortOutput (c : Call) : bool :=
  match c with GetSerialPortOutput _ => true | _ => false end.
Definition isStop (c : Call) : bool :=
  match c with Stop _ => true | _ => false end.
Definition isSleep (c : Call) : bool :=
  match c with Sleep _ => true | _ => false end.

Definition countCalls (p : Call -> bool) (w : World) : nat :=
  length (List.filter p (calls w)).

(** Dereferencing a pointer that may be nil. *)
Definition deref {A : Type} (p : option A) : M A :=
  match p with
  | Some a => mret a
  | None => panic
  end.

Definition startWorld (o : Output) : World := mkWorld o [].

(** ** The package-level variables (lines 35-39) *)

Definition networkValidatorImage : string :=
  "quay.io/app-sre/osd-network-verifier:v0.1.159-9a6e0eb".
Definition userdataEndVerifier : string := "USERDATA END".

(** Modelled from the spec: [helpers.PollImmediate] is not under src/.
    "Repeatedly invoke the function, sleeping the interval between calls,
    until either (a) it returns done=true with no error: success; (b) it
    returns an error: immediately abort and surface that error; (c) the
    deadline elapses without (a) or (b): abort with a timeout error. First
    invocation occurs immediately." The condition is invoked after 0,
    [interval], 2*[interval], ... of sleep, as long as that is less than
    [timeout]: [pollTicks] invocations at most. The call sites hand it no
    context, so no cancellation reaches the loop. *)
Definition pollTicks (interval timeout : Z) : nat :=
  Z.to_nat ((timeout + interval - 1) / interval).

(** Modelled from the spec: the loop of [helpers.PollImmediate], with
    [ticks] invocations left before the deadline. *)
Fixpoint pollLoop (ticks : nat) (interval : Z)
    (condition : M (bool * option Error)) : M (option Error) :=
  match ticks with
  | O => mret (Some ErrPollTimeout)
  | S ticks' =>
      r ← condition;
      match r with
      | (_, Some err) => mret (Some err)
      | (true, None) => mret None
      | (false, None) =>
          record (Sleep interval);; pollLoop ticks' interval condition
      end
  end.

(** Modelled from the spec: [helpers.PollImmediate(interval, timeout,
    condition)]. *)
Definition PollImmediate (interval timeout : Z)
    (condition : M (bool * option Error)) : M (option Error) :=
  pollLoop (pollTicks interval timeout) interval condition.

Definition inList (s : string) (l : list string) : bool :=
  existsb (String.eqb s) l.

Section Controller.

Variable rt : Runtime.
Variable cloud : Cloud.
Variable c : Client.

(** *** The calls to the compute service *)

Definition Instances_Insert (req : InstanceRequest) : M (option Error) :=
  record (Insert req);; mret (insertErr cloud).

Definition Instances_Get (name : string) : M (Error + Instance) :=
  fun w => Returns (getResp cloud (countCalls isGet w))
             (mkWorld (output w) (calls w ++ [Get name])).

Definition Instances_SetLabels (name fingerprint : string)
    (labels : gmap string string) : M (option Error) :=
  record (SetLabels name fingerprint labels);; mret (setLabelsErr cloud).

Definition Instances_GetSerialPortOutput (name : string)
  : M (Error + option SerialPortOutput) :=
  fun w => Returns (serialResp cloud (countCalls isGetSerialPortOutput w))
             (mkWorld (output w) (calls w ++ [GetSerialPortOutput name])).

Definition Instances_Stop (name : string) : M (option Error) :=
  record (Stop name);; mret (stopErr cloud).

(** *** Lines 102-169 *)
Definition createComputeServiceInstance
    (input : createComputeServiceInstanceInput)
  : M (createComputeServiceInstanceInput * option Error) :=
  let req := {|
    reqName := instanceName input;
    reqMachineType :=
      "zones/" +:+ zone c +:+ "/machineTypes/" +:+ machineType input;
    reqDiskSizeGb := 10;
    reqSourceImage := sourceImage input;
    reqAutoDelete := true;
    reqBoot := true;
    reqDiskType := "PERSISTENT";
    reqNetworkName := networkName input;
    reqSubnetwork := vpcSubnetID input;
    reqUserData := userdata input |} in
  err ← Instances_Insert req;
  match err with
  | Some e => mret (input, Some (ErrUnableToCreateInstance e))
  | None =>
      (* get fingerprint from instance: an error is only logged *)
      got ← Instances_Get (instanceName input);
      let inst : option Instance :=
        match got with inl _ => None | inr i => Some i end in
      (* inst.LabelFingerprint *)
      i ← deref inst;
      err ← Instances_SetLabels (instanceName input) (LabelFingerprint i)
              (tags c);
      match err with
      | Some e => mret (input, Some (ErrUnableToCreateLabels e))
      | None => mret (input, None)
      end
  end.

(** *** Lines 171-199

    The case PROVISIONING, STAGING of the switch and the test for the empty
    status only log. *)
Definition describeComputeServiceInstances (name : string)
  : M (string * option Error) :=
  got ← Instances_Get name;
  match got with
  | inl err => mret ("PERMISSION DENIED", Some err)
  | inr resp =>
      let status := Status resp in
      if inList status ["STOPPING"; "STOPPED"; "TERMINATED"; "SUSPENDED"]
      then mret ("FATAL", Some (ErrStatus status))
      else mret (status, None)
  end.

(** *** Lines 201-226: the condition function, then the poll *)
Definition instanceCondition (name : string) : M (bool * option Error) :=
  r ← describeComputeServiceInstances name;
  let code := fst r in
  let descError := snd r in
  if String.eqb code "RUNNING" then mret (true, None)
  else if String.eqb code "FATAL"
  then mret (false, Some (ErrAlreadyExists name descError))
  else if String.eqb code "PERMISSION DENIED"
  then mret (false, Some (ErrMissingPermissions descError))
  else match descError with
       | Some e => mret (false, Some e)
       | None => mret (false, None)
       end.

Definition waitForComputeServiceInstanceCompletion (name : string)
  : M (option Error) :=
  PollImmediate (5 * Second) (2 * Minute) (instanceCondition name).

(** *** Lines 228-235 *)
Definition generateUserData (variables : gmap string string)
  : string * option Error :=
  let variableMapper (varName : string) : string :=
    default EmptyString (variables !! varName) in
  (os_Expand rt (helpers_UserdataTemplate rt) variableMapper, None).

(** *** Lines 237-292

    [reVerify] is the pattern compiled at line 239. In the condition
    function, the inner test of [err] (line 253) comes after the return on
    [err != nil] and never holds. *)
Definition reVerify : string := userdataEndVerifier.

Definition connectivityProblem : Error :=
  EgressURLError
    "internet connectivity problem: please ensure there's internet access in given vpc subnets".

Definition consoleCondition (name : string) : M (bool * option Error) :=
  got ← Instances_GetSerialPortOutput name;
  match got with
  | inl err => mret (false, Some err)
  | inr None => mret (false, None)
  | inr (Some out) =>
      let scriptOutput := Sprintf_sharp_v out in
      if (String.length scriptOutput <? 1)%nat then mret (false, None)
      else
        let verifyMatch := Regexp.findLiteral reVerify scriptOutput in
        if (String.length verifyMatch <? 1)%nat then mret (false, None)
        else
          let notFoundMatch := Regexp.findAllFailureLines scriptOutput in
          (if (0 <? length notFoundMatch)%nat
           then updateOutput (Output_AddException connectivityProblem)
           else mret tt);;
          updateOutput
            (Output_SetEgressFailures
               (Regexp.findAllUnreachable scriptOutput));;
          mret (true, None)
  end.

Definition findUnreachableEndpoints (name : string) : M (option Error) :=
  PollImmediate (30 * Second) (4 * Minute) (consoleCondition name).

(** *** Lines 296-303 *)
Definition terminateComputeServiceInstance (name : string) : M unit :=
  err ← Instances_Stop name;
  updateOutput (Output_AddError err).

(** *** Lines 305-313 *)
Definition setCloudImage (cloudImageID : string) : string * option Error :=
  (if String.eqb cloudImageID EmptyString then "cos-97-lts"
   else cloudImageID, None).

(** *** Lines 321-385

    The random instance name is [rand_Intn_10000] of the runtime. *)
Definition userDataVariables (timeout : Z) (p : ProxyConfig)
  : gmap string string :=
  <["AWS_REGION" := "us-east-2"]>
  (<["USERDATA_BEGIN" := "USERDATA BEGIN"]>
  (<["USERDATA_END" := userdataEndVerifier]>
  (<["VALIDATOR_START_VERIFIER" := "VALIDATOR START"]>
  (<["VALIDATOR_END_VERIFIER" := "VALIDATOR END"]>
  (<["VALIDATOR_IMAGE" := networkValidatorImage]>
  (<["TIMEOUT" := Duration_String rt timeout]>
  (<["HTTP_PROXY" := HttpProxy p]>
  (<["HTTPS_PROXY" := HttpsProxy p]>
  (<["CACERT" := base64_EncodeToString rt (Cacert p)]>
  (<["NOTLS" := if NoTls p then "true" else "false"]> ∅)))))))))).

(** [return c.output.AddError(err)]: record, then hand back [c.output]. *)
Definition returnAddError (err : option Error) : M Output :=
  updateOutput (Output_AddError err);; readOutput.

Definition validateEgress (vpcSubnet cloudImageID kmsKeyID : string)
    (timeout : Z) (p : ProxyConfig) : M Output :=
  let '(userData, err) := generateUserData (userDataVariables timeout p) in
  match err with
  | Some e => returnAddError (Some e)
  | None =>
  let '(cloudImage, err) := setCloudImage cloudImageID in
  match err with
  | Some e => returnAddError (Some e)
  | None =>
  r ← createComputeServiceInstance {|
         ContOptImageID := EmptyString;
         vpcSubnetID :=
           "projects/" +:+ projectID c +:+ "/regions/" +:+ region c
           +:+ "/subnetworks/" +:+ vpcSubnet;
         userdata := userData;
         inputZone := zone c;
         machineType := instanceType c;
         instanceName := "verifier-" +:+ pretty (rand_Intn_10000 rt);
         sourceImage :=
           "projects/cos-cloud/global/images/family/" +:+ cloudImage;
         networkName :=
           "projects/" +:+ projectID c +:+ "/global/networks/"
           +:+ os_Getenv rt "GCP_VPC_NAME" |};
  let instance := fst r in
  match snd r with
  | Some e =>
      terminateComputeServiceInstance (instanceName instance);;
      returnAddError (Some e)
  | None =>
      instanceReadyErr ←
        waitForComputeServiceInstanceCompletion (instanceName instance);
      match instanceReadyErr with
      | Some e =>
          terminateComputeServiceInstance (instanceName instance);;
          returnAddError (Some e)
      | None =>
          err ← findUnreachableEndpoints (instanceName instance);
          match err with
          | Some e => updateOutput (Output_AddError (Some e))
          | None => mret tt
          end;;
          terminateComputeServiceInstance (instanceName instance);;
          readOutput
      end
  end
  end
  end.

End Controller.

(** ** What a run leaves behind *)

(** The number of [Stop] calls, that is of terminations, so far. *)
Definition stops (w : World) : nat := countCalls isStop w.

(** The time slept so far. *)
Definition slept (w : World) : Z :=
  fold_right (fun c acc => match c with Sleep d => d + acc | _ => acc end)
    0 (calls w).

(** [tickThenSleep call interval k]: the calls of [k] polls that each
    reported "not done" and were followed by a sleep. *)
Fixpoint tickThenSleep (call : Call) (interval : Z) (k : nat) : list Call :=
  match k with
  | O => []
  | S k' => call :: Sleep interval :: tickThenSleep call interval k'
  end.

(** The world after one more call, and after [k] polls that each reported
    "not done" and were followed by a sleep. *)
Definition called (call : Call) (w : World) : World :=
  mkWorld (output w) (calls w ++ [call]).

Definition polled (call : Call) (interval : Z) (k : nat) (w : World) : World :=
  mkWorld (output w) (calls w ++ tickThenSleep call interval k).

(** The number of [Instances.Get] and of [GetSerialPortOutput] calls. *)
Definition gets (w : World) : nat := countCalls isGet w.
Definition reads (w : World) : nat := countCalls isGetSerialPortOutput w.

(** A describe answer on which the readiness poll goes on: a status that is
    neither RUNNING, nor one of the four fatal ones, nor one of the two
    strings the controller uses as its own result codes. *)
Definition keepsPolling (r : Error + Instance) : bool :=
  match r with
  | inl _ => false
  | inr i =>
      negb (inList (Status i)
              ["RUNNING"; "STOPPING"; "STOPPED"; "TERMINATED"; "SUSPENDED";
               "FATAL"; "PERMISSION DENIED"])
  end.

(** A console answer on which the analyzer goes on: no output yet, or a
    text without the completion marker. *)
Definition notYetComplete (r : Error + option SerialPortOutput) : bool :=
  match r with
  | inl _ => false
  | inr None => true
  | inr (Some out) =>
      negb (Text.contains userdataEndVerifier (Sprintf_sharp_v out))
  end.


(** [stopsBy m k]: whenever [m] returns, it has made exactly [k] calls of
    [Stop]. *)
Definition stopsBy {A : Type} (m : M A) (k : nat) : Prop :=
  forall w, match m w with
            | Returns _ w' => stops w' = (stops w + k)%nat
            | Panics _ => True
            end.

(** [returns m]: [m] returns from every world, it never panics. *)
Definition returns {A : Type} (m : M A) : Prop :=
  forall w, exists a w', m w = Returns a w'.

(** Lines 364-384: what [validateEgress] does with the outcome of the
    create step. *)
Definition afterCreate (cloud : Cloud)
    (r : createComputeServiceInstanceInput * option Error) : M Output :=
  match snd r with
  | Some e =>
      terminateComputeServiceInstance cloud (instanceName (fst r));;
      returnAddError (Some e)
  | None =>
      instanceReadyErr ←
        waitForComputeServiceInstanceCompletion cloud (instanceName (fst r));
      match instanceReadyErr with
      | Some e =>
          terminateComputeServiceInstance cloud (instanceName (fst r));;
          returnAddError (Some e)
      | None =>
          err ← findUnreachableEndpoints cloud (instanceName (fst r));
          match err with
          | Some e => updateOutput (Output_AddError (Some e))
          | None => mret tt
          end;;
          terminateComputeServiceInstance cloud (instanceName (fst r));;
          readOutput
      end
  end.

(** The bytes that [strconv.Quote] copies as they are: printable ASCII other
    than the double quote and the backslash. *)
Definition isPlain (ch : ascii) : bool :=
  let n := Ascii.nat_of_ascii ch in
  (32 <=? n)%nat && (n <=? 126)%nat
  && negb (n =? 34)%nat && negb (n =? 92)%nat.

Definition plain (s : string) : bool :=
  forallb isPlain (list_ascii_of_string s).

(** The request and the input that [validateEgress] builds. *)
Definition requestOf (c : Client) (input : createComputeServiceInstanceInput)
  : InstanceRequest :=
  {| reqName := instanceName input;
     reqMachineType :=
       "zones/" +:+ zone c +:+ "/machineTypes/" +:+ machineType input;
     reqDiskSizeGb := 10;
     reqSourceImage := sourceImage input;
     reqAutoDelete := true;
     reqBoot := true;
     reqDiskType := "PERSISTENT";
     reqNetworkName := networkName input;
     reqSubnetwork := vpcSubnetID input;
     reqUserData := userdata input |}.

Definition instanceNameOf (rt : Runtime) : string :=
  "verifier-" +:+ pretty (rand_Intn_10000 rt).

Definition inputOf (rt : Runtime) (c : Client) (subnet image : string)
    (timeout : Z) (p : ProxyConfig) : createComputeServiceInstanceInput :=
  {| ContOptImageID := EmptyString;
     vpcSubnetID :=
       "projects/" +:+ projectID c +:+ "/regions/" +:+ region c
       +:+ "/subnetworks/" +:+ subnet;
     userdata := fst (generateUserData rt (userDataVariables rt timeout p));
     inputZone := zone c;
     machineType := instanceType c;
     instanceName := instanceNameOf rt;
     sourceImage :=
       "projects/cos-cloud/global/images/family/" +:+ fst (setCloudImage image);
     networkName :=
       "projects/" +:+ projectID c +:+ "/global/networks/"
       +:+ os_Getenv rt "GCP_VPC_NAME" |}.


(** ** The spec's reading of two operations, for comparison *)

(** Spec 4.2: [awaitRunning(instance, timeout)] "uses PollLoop with a short
    fixed interval (on the order of seconds) and the caller-supplied
    timeout". *)
Definition awaitRunning_spec (cloud : Cloud) (timeout : Z) (name : string)
  : M (option Error) :=
  PollImmediate (5 * Second) timeout (instanceCondition cloud name).




(** ** Concrete runs *)

Module Scenario.

(** The runtime functions are given on the values the scenarios pass to
    them: a template without a dollar sign (which [os.Expand] returns as
    it is), a timeout of ten seconds, an empty CA certificate. *)
Definition timeout : Z := 10 * Second.

Definition rt : Runtime :=
  mkRuntime "#cloud-config" (fun template _ => template)
    (fun _ => "10s") (fun _ => EmptyString) 42 (fun _ => "default").

Definition client : Client :=
  mkClient "proj" "us-east1" "us-east1-b" "e2-standard-2" ∅.

Definition proxy : ProxyConfig := mkProxyConfig "" "" "" false.

Definition emptyOutput : Output := mkOutput [] [] [].

Definition console (contents : string) : SerialPortOutput :=
  mkSerialPortOutput contents "" 0 "" 0 200 None None None.

Definition running : Error + Instance := inr (mkInstance "RUNNING" "fp").

(** [Instances.Insert] is refused. *)
Definition insertRefused : Cloud :=
  mkCloud (Some (ApiError 400 "invalid subnetwork")) (fun _ => running)
    None (fun _ => inr None) None.

(** The instance is created, the fingerprint lookup fails. *)
Definition fingerprintGetFails : Cloud :=
  mkCloud None (fun _ => inl (ApiError 503 "backend unavailable"))
    None (fun _ => inr None) None.

(** The instance never leaves PROVISIONING. *)
Definition neverReady : Cloud :=
  mkCloud None (fun _ => inr (mkInstance "PROVISIONING" "fp"))
    None (fun _ => inr None) None.

(** Two polls in STAGING, then RUNNING; the console shows failure and
    unreachable lines twice before the marker is there. *)
Definition probeFinds : Cloud :=
  mkCloud None
    (fun n => inr (mkInstance (if (n <? 3)%nat then "STAGING" else "RUNNING")
                     "fp"))
    None
    (fun n => inr (Some (console
       (if (n <? 2)%nat
        then "Failed early Unable to reach early.example.com "
        else "USERDATA END Unable to reach host1.example.com done"))))
    None.

(** A provider status that reads FATAL, then RUNNING. *)
Definition statusReadsFatal : Cloud :=
  mkCloud None
    (fun n => inr (mkInstance (if (n <? 1)%nat then "FATAL" else "RUNNING")
                     "fp"))
    None (fun _ => inr None) None.

(** One poll in STAGING, then the instance is found STOPPED. *)
Definition foundStopped : Cloud :=
  mkCloud None
    (fun n => inr (mkInstance (if (n <? 1)%nat then "STAGING" else "STOPPED")
                     "fp"))
    None (fun _ => inr None) None.

(** One poll in STAGING, then the describe call fails (a transient 503),
    and would have succeeded afterwards. *)
Definition describeFails : Cloud :=
  mkCloud None
    (fun n => if (n <? 1)%nat then inr (mkInstance "STAGING" "fp")
              else if (n <? 2)%nat then inl (ApiError 503 "try again")
              else running)
    None (fun _ => inr None) None.



Definition markerText : SerialPortOutput :=
  console "USERDATA END Unable to reach host1.example.com done".

Definition run (cloud : Cloud) : Outcome Output :=
  validateEgress rt cloud client "subnet-1" "" "" timeout proxy
    (startWorld emptyOutput).

End Scenario.

(** ** Construction of the client (lines 41-100) *)

(** The errors of the construction: the error of [computev1.NewService],
    which [newClient] returns as it is, and the three [fmt.Errorf] formats
    of lines 67, 92 and 96. *)
Inductive SetupError : Type :=
| ServiceError (err : Error)
| ErrUnableToGatherList (cause : Error)
    (* line 92: Unable to gather list of supported instance types ...: %v *)
| ErrInstanceTypeNotFound (instanceType : string)
    (* line 96: Instance type %s not found in ComputeService API *)
| ErrInstanceTypeInvalid (instanceType : string) (cause : SetupError).
    (* line 67: Instance type %s is invalid: %v *)

(** The answers of [MachineTypes.List(project, zone)], page after page: a
    request fails, or returns the names of a page, with or without a token
    for a next page. *)
Inductive MachineTypePages : Type :=
| PageError (err : Error)
| LastPage (names : list string)
| NextPage (names : list string) (rest : MachineTypePages).

(** [MachineTypesListCall.Pages(ctx, f)]: request a page, give up on an
    error of the request or of [f], stop after the page without a token.
    [f] reads and writes the variables it captures: the state [S]. *)
Fixpoint MachineTypes_Pages {S : Type} (listing : MachineTypePages)
    (f : list string -> S -> S * option Error) (s : S) : S * option Error :=
  match listing with
  | PageError err => (s, Some err)
  | LastPage names => f names s
  | NextPage names rest =>
      let '(s', err) := f names s in
      match err with
      | Some e => (s', Some e)
      | None => MachineTypes_Pages rest f s'
      end
  end.

(** The service built by [computev1.NewService], as far as the construction
    uses it. *)
Record ComputeService : Type := mkComputeService {
  MachineTypes_List : string -> string -> MachineTypePages
}.

(** Lines 82-88: the loop over the names of one page; it sets [found] and
    breaks at the first name equal to the instance type. *)
Fixpoint scanPage (instanceType : string) (names : list string) (found : bool)
  : bool :=
  match names with
  | [] => found
  | machineType :: rest =>
      if String.eqb machineType instanceType then true
      else scanPage instanceType rest found
  end.

(** Lines 73-100. *)
Definition validateMachineType (computeService : ComputeService) (c : Client)
  : option SetupError :=
  let descOut := MachineTypes_List computeService (projectID c) (zone c) in
  let '(found, err) :=
    MachineTypes_Pages descOut
      (fun names found => (scanPage (instanceType c) names found, None))
      false in
  match err with
  | Some e => Some (ErrUnableToGatherList e)
  | None =>
      if found then None else Some (ErrInstanceTypeNotFound (instanceType c))
  end.

(** [*google.Credentials], the field the construction reads. *)
Record Credentials : Type := mkCredentials {
  ProjectID : string
}.

(** How a call of [newClient] ends: with the client (its fields, its
    service and its [output]), with an error, or in a panic. *)
Inductive NewClientOutcome : Type :=
| Built (c : Client) (computeService : ComputeService) (out : Output)
| Refused (err : SetupError)
| NewClientPanics.

(** Lines 41-71. [credentials] is a pointer: [None] is nil, and reading
    [credentials.ProjectID] (line 54) from nil panics. *)
Definition newClient (newService : Error + ComputeService)
    (credentials : option Credentials) (region instanceType : string)
    (tags : gmap string string) : NewClientOutcome :=
  match newService with
  | inl err => Refused (ServiceError err)
  | inr computeService =>
      match credentials with
      | None => NewClientPanics
      | Some cred =>
          let c := {| projectID := ProjectID cred;
                      region := region;
                      zone := region +:+ "-b";
                      instanceType := instanceType;
                      tags := tags |} in
          match validateMachineType computeService c with
          | Some err => Refused (ErrInstanceTypeInvalid (instanceType) err)
          | None => Built c computeService (mkOutput [] [] [])
          end
      end
  end.

(** The names on the pages that are received, and the error that ends the
    listing, if any. *)
Fixpoint listedNames (listing : MachineTypePages) : list string :=
  match listing with
  | PageError _ => []
  | LastPage names => names
  | NextPage names rest => names ++ listedNames rest
  end.

Fixpoint listingError (listing : MachineTypePages) : option Error :=
  match listing with
  | PageError err => Some err
  | LastPage _ => None
  | NextPage _ rest => listingError rest
  end.

Module Setup.

(** Two pages of machine types, complete; and the first of them followed by
    a request that fails. *)
Definition twoPages : MachineTypePages :=
  NextPage ["e2-micro"; "e2-standard-2"] (LastPage ["n1-standard-1"]).

Definition secondPageFails : MachineTypePages :=
  NextPage ["e2-micro"; "e2-standard-2"]
    (PageError (ApiError 503 "backend unavailable")).

(** A service that lists machine types in zone us-east1-b of project proj
    only. *)
Definition service (listing : MachineTypePages) : ComputeService :=
  mkComputeService
    (fun project zone =>
       if String.eqb project "proj" && String.eqb zone "us-east1-b"
       then listing
       else PageError (ApiError 404 "unknown zone")).

End Setup.

(** ** More on what a run leaves behind *)

(** The world in which a computation ends, returning or panicking. *)
Definition finalWorld {A : Type} (o : Outcome A) : World :=
  match o with
  | Returns _ w => w
  | Panics w => w
  end.

(** [keepsOutput m]: [m] leaves [c.output] as it found it. *)
Definition keepsOutput {A : Type} (m : M A) : Prop :=
  forall w, output (finalWorld (m w)) = output w.

(** The world once the instance is created and labelled. *)
Definition created (c : Client) (input : createComputeServiceInstanceInput)
    (inst : Instance) (w : World) : World :=
  called (SetLabels (instanceName input) (LabelFingerprint inst) (tags c))
    (called (Get (instanceName input))
       (called (Insert (requestOf c input)) w)).

Module Tour.

(** The labels are refused, and so is the stop that follows. *)
Definition labelsRefused : Cloud :=
  mkCloud None (fun _ => Scenario.running)
    (Some (ApiError 400 "invalid label"))
    (fun _ => inr None)
    (Some (ApiError 403 "stop not allowed")).

(** Ready at once; the console is empty once, then its fetch fails, and
    would have shown the marker afterwards. *)
Definition consoleFetchFails : Cloud :=
  mkCloud None (fun _ => Scenario.running) None
    (fun n => if (n <? 1)%nat then inr None
              else if (n <? 2)%nat then inl (ApiError 503 "try again")
              else inr (Some Scenario.markerText))
    None.

(** Ready at once; the probe never finishes, though its console shows a
    failure and an unreachable host. *)
Definition neverCompletes : Cloud :=
  mkCloud None (fun _ => Scenario.running) None
    (fun _ => inr (Some (Scenario.console
       "Failed early Unable to reach early.example.com ")))
    None.

(** The world of a run of the scenarios once the instance is created. *)
Definition afterCreation : World :=
  created Scenario.client
    (inputOf Scenario.rt Scenario.client "subnet-1" "" Scenario.timeout
       Scenario.proxy)
    (mkInstance "RUNNING" "fp") (startWorld Scenario.emptyOutput).

End Tour.

(** ** Measuring a run *)

Definition isInsert (c : Call) : bool :=
  match c with Insert _ => true | _ => false end.
Definition isSetLabels (c : Call) : bool :=
  match c with SetLabels _ _ _ => true | _ => false end.

(** A call that a run for the instance [name] may make: any call that names
    that instance (for [Insert], in its request), and a sleep of one of the
    two poll intervals. *)
Definition runCall (name : string) (call : Call) : bool :=
  match call with
  | Insert req => String.eqb (reqName req) name
  | Get n => String.eqb n name
  | SetLabels n _ _ => String.eqb n name
  | GetSerialPortOutput n => String.eqb n name
  | Stop n => String.eqb n name
  | Sleep d => (d =? 5 * Second)%Z || (d =? 30 * Second)%Z
  end.

(** A weight per kind of call; a sum of weights measures a list of calls. *)
Record Weights : Type := mkWeights {
  ofInsert : Z;
  ofGet : Z;
  ofSetLabels : Z;
  ofRead : Z;
  ofStop : Z;
  ofSleep5 : Z;
  ofSleep30 : Z
}.

Definition weigh (ws : Weights) (call : Call) : Z :=
  match call with
  | Insert _ => ofInsert ws
  | Get _ => ofGet ws
  | SetLabels _ _ _ => ofSetLabels ws
  | GetSerialPortOutput _ => ofRead ws
  | Stop _ => ofStop ws
  | Sleep d =>
      if (d =? 5 * Second)%Z then ofSleep5 ws
      else if (d =? 30 * Second)%Z then ofSleep30 ws
      else 0
  end.

Definition total (ws : Weights) (l : list Call) : Z :=
  fold_right (fun call acc => weigh ws call + acc) 0 l.

Definition nonnegative (ws : Weights) : Prop :=
  0 <= ofInsert ws /\ 0 <= ofGet ws /\ 0 <= ofSetLabels ws /\ 0 <= ofRead ws
  /\ 0 <= ofStop ws /\ 0 <= ofSleep5 ws /\ 0 <= ofSleep30 ws.

(** [grows o o']: [o'] is [o] with more at the end of its lists. *)
Definition grows (o o' : Output) : Prop :=
  (exists fs, failures o' = failures o ++ fs)
  /\ (exists xs, exceptions o' = exceptions o ++ xs)
  /\ (exists es, errors o' = errors o ++ es).

(** [behaves name ws m k]: however [m] ends, it has only added to the
    result, and the calls it has made are calls of the run for [name] whose
    weights sum up to [k] at most. *)
Definition behaves (name : string) (ws : Weights) {A : Type} (m : M A) (k : Z)
  : Prop :=
  0 <= k
  /\ forall w,
       grows (output w) (output (finalWorld (m w)))
       /\ exists l,
            calls (finalWorld (m w)) = calls w ++ l
            /\ forallb (runCall name) l = true
            /\ total ws l <= k.

(** The weight of the calls of a whole run, at most. *)
Definition runBudget (ws : Weights) : Z :=
  ofInsert ws + ofGet ws + ofSetLabels ws
  + 24 * (ofGet ws + ofSleep5 ws)
  + 8 * (ofRead ws + ofSleep30 ws)
  + ofStop ws.

(** [returnsOutput m]: what [m] returns is [c.output] as it is then. *)
Definition returnsOutput (m : M Output) : Prop :=
  forall w out w', m w = Returns out w' -> out = output w'.

(** The time slept by a list of calls. *)
Definition sleptIn (l : list Call) : Z :=
  fold_right (fun c acc => match c with Sleep d => d + acc | _ => acc end) 0 l.

(** The weights that count nothing, one kind of call, or the time slept. *)
Definition noWeights : Weights := mkWeights 0 0 0 0 0 0 0.
Definition insertWeights : Weights := mkWeights 1 0 0 0 0 0 0.
Definition getWeights : Weights := mkWeights 0 1 0 0 0 0 0.
Definition setLabelsWeights : Weights := mkWeights 0 0 1 0 0 0 0.
Definition readWeights : Weights := mkWeights 0 0 0 1 0 0 0.
Definition stopWeights : Weights := mkWeights 0 0 0 0 1 0 0.
Definition sleepWeights : Weights :=
  mkWeights 0 0 0 0 0 (5 * Second) (30 * Second).

(** The names of the template variables that [validateEgress] sets. *)
Definition templateVariables : list string :=
  ["AWS_REGION"; "USERDATA_BEGIN"; "USERDATA_END";
   "VALIDATOR_START_VERIFIER"; "VALIDATOR_END_VERIFIER"; "VALIDATOR_IMAGE";
   "TIMEOUT"; "HTTP_PROXY"; "HTTPS_PROXY"; "CACERT"; "NOTLS"].


(** ** Basic facts about the monad and the trace *)

Lemma bind_Returns {A B : Type} (m : M A) (f : A -> M B) w a w1 :
  m w = Returns a w1 -> (m ≫= f) w = f a w1.
Proof. intros H. unfold mbind, M_bind. now rewrite H. Qed.

Lemma bind_Panics {A B : Type} (m : M A) (f : A -> M B) w w1 :
  m w = Panics w1 -> (m ≫= f) w = Panics w1.
Proof. intros H. unfold mbind, M_bind. now rewrite H. Qed.

Lemma countCalls_app p o l1 l2 :
  countCalls p (mkWorld o (l1 ++ l2))
  = (countCalls p (mkWorld o l1) + length (List.filter p l2))%nat.
Proof.
  unfold countCalls; simpl. rewrite List.filter_app. apply length_app.
Qed.

Lemma countCalls_snoc p w c :
  countCalls p (mkWorld (output w) (calls w ++ [c]))
  = (countCalls p w + (if p c then 1 else 0))%nat.
Proof.
  rewrite countCalls_app. unfold countCalls; simpl. now destruct (p c).
Qed.

Lemma slept_app o l1 l2 :
  slept (mkWorld o (l1 ++ l2)) = slept (mkWorld o l1) + slept (mkWorld o l2).
Proof.
  unfold slept; simpl. induction l1 as [|c l1 IH]; simpl; [lia|].
  destruct c; simpl; lia.
Qed.

(** ** Terminations are counted along the control flow *)

Lemma stopsBy_ret {A : Type} (a : A) : stopsBy (mret a) 0.
Proof. intros w. simpl. unfold stops. lia. Qed.

Lemma stopsBy_bind {A B : Type} (m : M A) (f : A -> M B) k1 k2 :
  stopsBy m k1 -> (forall a, stopsBy (f a) k2) ->
  stopsBy (m ≫= f) (k1 + k2).
Proof.
  intros Hm Hf w. specialize (Hm w). unfold mbind, M_bind.
  destruct (m w) as [a w1|w1]; [|exact I].
  specialize (Hf a w1). destruct (f a w1); [lia|exact I].
Qed.

Lemma stopsBy_record c : isStop c = false -> stopsBy (record c) 0.
Proof.
  intros Hc w. unfold record, stops. rewrite countCalls_snoc, Hc. lia.
Qed.

Lemma stopsBy_updateOutput f : stopsBy (updateOutput f) 0.
Proof. intros w. unfold updateOutput, stops, countCalls; simpl. lia. Qed.

Lemma stopsBy_readOutput : stopsBy readOutput 0.
Proof. intros w. unfold readOutput, stops. lia. Qed.

Lemma stopsBy_deref {A : Type} (p : option A) : stopsBy (deref p) 0.
Proof. destruct p; [apply stopsBy_ret | intros w; exact I]. Qed.

Lemma stopsBy_Get cloud name : stopsBy (Instances_Get cloud name) 0.
Proof.
  intros w. unfold Instances_Get, stops. rewrite countCalls_snoc. simpl. lia.
Qed.

Lemma stopsBy_GetSerialPortOutput cloud name :
  stopsBy (Instances_GetSerialPortOutput cloud name) 0.
Proof.
  intros w. unfold Instances_GetSerialPortOutput, stops.
  rewrite countCalls_snoc. simpl. lia.
Qed.

Lemma stopsBy_Stop cloud name : stopsBy (Instances_Stop cloud name) 1.
Proof.
  intros w. unfold Instances_Stop, record, stops, mbind, M_bind; simpl.
  now rewrite countCalls_snoc.
Qed.

Create HintDb stops.

#[local] Hint Resolve stopsBy_ret stopsBy_updateOutput stopsBy_readOutput
  stopsBy_deref stopsBy_Get stopsBy_GetSerialPortOutput stopsBy_Stop
  : stops.

Lemma stopsBy_pollLoop ticks interval condition :
  stopsBy condition 0 -> stopsBy (pollLoop ticks interval condition) 0.
Proof.
  intros Hc. induction ticks as [|n IH]; simpl.
  - apply stopsBy_ret.
  - apply (stopsBy_bind _ _ 0 0); [exact Hc|].
    intros [[|] [e|]]; try apply stopsBy_ret.
    apply (stopsBy_bind _ _ 0 0); [apply stopsBy_record; reflexivity|].
    intros _. exact IH.
Qed.

Lemma stopsBy_create cloud c input :
  stopsBy (createComputeServiceInstance cloud c input) 0.
Proof.
  unfold createComputeServiceInstance, Instances_Insert, Instances_SetLabels.
  apply (stopsBy_bind _ _ 0 0).
  - apply (stopsBy_bind _ _ 0 0); [apply stopsBy_record; reflexivity|].
    intros _. apply stopsBy_ret.
  - intros [e|]; [apply stopsBy_ret|].
    apply (stopsBy_bind _ _ 0 0); [apply stopsBy_Get|]. intros got.
    apply (stopsBy_bind _ _ 0 0); [apply stopsBy_deref|]. intros i.
    apply (stopsBy_bind _ _ 0 0).
    + apply (stopsBy_bind _ _ 0 0); [apply stopsBy_record; reflexivity|].
      intros _. apply stopsBy_ret.
    + intros [e|]; apply stopsBy_ret.
Qed.

Lemma stopsBy_instanceCondition cloud name :
  stopsBy (instanceCondition cloud name) 0.
Proof.
  unfold instanceCondition, describeComputeServiceInstances.
  apply (stopsBy_bind _ _ 0 0).
  - apply (stopsBy_bind _ _ 0 0); [apply stopsBy_Get|].
    intros [e|i]; [apply stopsBy_ret|].
    destruct (inList _ _); apply stopsBy_ret.
  - intros [code descError]; simpl.
    repeat (match goal with |- context [String.eqb ?a ?b] =>
              destruct (String.eqb a b) end; [apply stopsBy_ret|]).
    destruct descError; apply stopsBy_ret.
Qed.

Lemma stopsBy_consoleCondition cloud name :
  stopsBy (consoleCondition cloud name) 0.
Proof.
  unfold consoleCondition.
  apply (stopsBy_bind _ _ 0 0); [apply stopsBy_GetSerialPortOutput|].
  intros [e|[out|]]; try apply stopsBy_ret.
  destruct (_ <? 1)%nat; [apply stopsBy_ret|].
  destruct (_ <? 1)%nat; [apply stopsBy_ret|].
  apply (stopsBy_bind _ _ 0 0).
  - destruct (0 <? _)%nat; auto with stops.
  - intros _. apply (stopsBy_bind _ _ 0 0); auto with stops.
Qed.

Lemma stopsBy_terminate cloud name :
  stopsBy (terminateComputeServiceInstance cloud name) 1.
Proof.
  unfold terminateComputeServiceInstance.
  apply (stopsBy_bind _ _ 1 0); [apply stopsBy_Stop|].
  intros err. apply stopsBy_updateOutput.
Qed.

Lemma stopsBy_returnAddError err : stopsBy (returnAddError err) 0.
Proof.
  unfold returnAddError. apply (stopsBy_bind _ _ 0 0); auto with stops.
Qed.

Lemma stopsBy_validateEgress rt cloud c subnet image kms timeout p :
  stopsBy (validateEgress rt cloud c subnet image kms timeout p) 1.
Proof.
  unfold validateEgress, generateUserData, setCloudImage.
  apply (stopsBy_bind _ _ 0 1); [apply stopsBy_create|].
  intros [instance [e|]]; simpl.
  - apply (stopsBy_bind _ _ 1 0); [apply stopsBy_terminate|].
    intros _. apply stopsBy_returnAddError.
  - apply (stopsBy_bind _ _ 0 1).
    { apply stopsBy_pollLoop, stopsBy_instanceCondition. }
    intros [e|].
    + apply (stopsBy_bind _ _ 1 0); [apply stopsBy_terminate|].
      intros _. apply stopsBy_returnAddError.
    + apply (stopsBy_bind _ _ 0 1).
      { apply stopsBy_pollLoop, stopsBy_consoleCondition. }
      intros err. apply (stopsBy_bind _ _ 0 1).
      { destruct err; auto with stops. }
      intros _. apply (stopsBy_bind _ _ 1 0); [apply stopsBy_terminate|].
      intros _. apply stopsBy_readOutput.
Qed.

(** ** Polls that go on *)

Lemma world_eta w : mkWorld (output w) (calls w) = w.
Proof. now destruct w. Qed.

Lemma polled_0 call interval w : polled call interval 0 w = w.
Proof. unfold polled; simpl. rewrite app_nil_r. apply world_eta. Qed.

Lemma polled_S call interval k w :
  polled call interval (S k) w
  = polled call interval k (called (Sleep interval) (called call w)).
Proof.
  unfold polled, called; simpl. f_equal.
  now rewrite <- !app_assoc.
Qed.

Lemma filter_tickThenSleep p call interval k :
  p (Sleep interval) = false ->
  length (List.filter p (tickThenSleep call interval k))
  = ((if p call then 1 else 0) * k)%nat.
Proof.
  intros Hs. induction k as [|k IH]; simpl; [lia|].
  rewrite Hs. destruct (p call); simpl in *; lia.
Qed.

Lemma countCalls_polled p call interval k w :
  p (Sleep interval) = false ->
  countCalls p (polled call interval k w)
  = (countCalls p w + (if p call then 1 else 0) * k)%nat.
Proof.
  intros Hs. unfold polled. rewrite countCalls_app, filter_tickThenSleep by easy.
  now rewrite world_eta.
Qed.

Lemma slept_polled call interval k w :
  isSleep call = false ->
  slept (polled call interval k w) = slept w + Z.of_nat k * interval.
Proof.
  intros Hc. unfold polled. rewrite slept_app, world_eta. f_equal.
  unfold slept; simpl. induction k as [|k IH]; [simpl; lia|].
  cbn [tickThenSleep fold_right]. rewrite IH.
  destruct call; try discriminate Hc; lia.
Qed.

(** As long as the condition answers "not done, no error", the loop sleeps
    and asks again. *)
Lemma pollLoop_goes_on call interval condition k :
  forall n w,
    (forall i, (i < k)%nat ->
       condition (polled call interval i w)
       = Returns (false, None) (called call (polled call interval i w))) ->
    pollLoop (k + n) interval condition w
    = pollLoop n interval condition (polled call interval k w).
Proof.
  induction k as [|k IH]; intros n w H.
  - now rewrite polled_0.
  - change (S k + n)%nat with (S (k + n)). cbn [pollLoop].
    pose proof (H 0%nat ltac:(lia)) as H0. rewrite polled_0 in H0.
    rewrite (bind_Returns _ _ _ _ _ H0).
    unfold record at 1. unfold mbind at 1, M_bind at 1.
    rewrite polled_S. apply IH.
    intros i Hi. specialize (H (S i) ltac:(lia)).
    now rewrite polled_S in H.
Qed.

Lemma pollLoop_last_tick interval condition n w r w' :
  condition w = Returns r w' ->
  r <> (false, None) ->
  pollLoop (S n) interval condition w
  = Returns (match r with
             | (_, Some e) => Some e
             | (_, None) => None
             end) w'.
Proof.
  intros H Hr. cbn [pollLoop]. rewrite (bind_Returns _ _ _ _ _ H).
  destruct r as [[|] [e|]]; try reflexivity. now contradict Hr.
Qed.

(** ** One tick of the readiness wait *)

Section ReadinessTick.

Variable cloud : Cloud.
Variable name : string.

Lemma instanceCondition_error w e :
  getResp cloud (gets w) = inl e ->
  describeComputeServiceInstances cloud name w
  = Returns ("PERMISSION DENIED", Some e) (called (Get name) w)
  /\ instanceCondition cloud name w
     = Returns (false, Some (ErrMissingPermissions (Some e)))
         (called (Get name) w).
Proof.
  intros H.
  assert (describeComputeServiceInstances cloud name w
          = Returns ("PERMISSION DENIED", Some e) (called (Get name) w))
    as Hd.
  { unfold describeComputeServiceInstances, Instances_Get, mbind, M_bind.
    unfold gets in H. now rewrite H. }
  split; [exact Hd|].
  unfold instanceCondition. now rewrite (bind_Returns _ _ _ _ _ Hd).
Qed.

Lemma describe_status w i :
  getResp cloud (gets w) = inr i ->
  describeComputeServiceInstances cloud name w
  = Returns
      (if inList (Status i) ["STOPPING"; "STOPPED"; "TERMINATED"; "SUSPENDED"]
       then ("FATAL", Some (ErrStatus (Status i)))
       else (Status i, None))
      (called (Get name) w).
Proof.
  intros H.
  unfold describeComputeServiceInstances, Instances_Get, mbind, M_bind.
  unfold gets in H. rewrite H. now destruct (inList _ _).
Qed.

Lemma instanceCondition_fatal w i :
  getResp cloud (gets w) = inr i ->
  inList (Status i) ["STOPPING"; "STOPPED"; "TERMINATED"; "SUSPENDED"]
  = true ->
  instanceCondition cloud name w
  = Returns (false, Some (ErrAlreadyExists name (Some (ErrStatus (Status i)))))
      (called (Get name) w).
Proof.
  intros H Hf. unfold instanceCondition.
  rewrite (bind_Returns _ _ _ _ _ (describe_status w i H)), Hf.
  reflexivity.
Qed.

Lemma instanceCondition_running w i :
  getResp cloud (gets w) = inr i ->
  Status i = "RUNNING" ->
  instanceCondition cloud name w = Returns (true, None) (called (Get name) w).
Proof.
  intros H Hs. unfold instanceCondition.
  rewrite (bind_Returns _ _ _ _ _ (describe_status w i H)), Hs.
  reflexivity.
Qed.

Lemma instanceCondition_goes_on w :
  keepsPolling (getResp cloud (gets w)) = true ->
  instanceCondition cloud name w = Returns (false, None) (called (Get name) w).
Proof.
  destruct (getResp cloud (gets w)) as [e|i] eqn:H; [discriminate|].
  unfold keepsPolling, inList. cbn [existsb]. intros Hk.
  apply negb_true_iff in Hk.
  repeat (apply orb_false_elim in Hk as [? Hk]).
  unfold instanceCondition.
  rewrite (bind_Returns _ _ _ _ _ (describe_status w i H)).
  unfold inList. cbn [existsb].
  repeat match goal with H : String.eqb _ _ = false |- _ => rewrite H end.
  cbn [orb fst snd].
  repeat match goal with H : String.eqb _ _ = false |- _ => rewrite H end.
  reflexivity.
Qed.

(** While the answers keep the poll going, the wait has made one describe
    call and one sleep of five seconds per answer. *)
Lemma readiness_goes_on k n w :
  (forall i, (i < k)%nat ->
     keepsPolling (getResp cloud (gets w + i)) = true) ->
  pollLoop (k + n) (5 * Second) (instanceCondition cloud name) w
  = pollLoop n (5 * Second) (instanceCondition cloud name)
      (polled (Get name) (5 * Second) k w).
Proof.
  intros H. apply pollLoop_goes_on. intros i Hi.
  apply instanceCondition_goes_on.
  unfold gets. rewrite countCalls_polled by reflexivity.
  cbn [isGet]. rewrite Nat.mul_1_l. now apply H.
Qed.

Lemma gets_polled k w :
  gets (polled (Get name) (5 * Second) k w) = (gets w + k)%nat.
Proof.
  unfold gets. rewrite countCalls_polled by reflexivity.
  cbn [isGet]. lia.
Qed.

End ReadinessTick.

Lemma readiness_ticks : pollTicks (5 * Second) (2 * Minute) = 24%nat.
Proof. reflexivity. Qed.

Lemma console_ticks : pollTicks (30 * Second) (4 * Minute) = 8%nat.
Proof. reflexivity. Qed.

(** ** C4: the readiness wait, status by status *)

(** C4, as the code has it. Let the first [k] describe answers be statuses
    on which the poll goes on (PROVISIONING, STAGING, the empty string and
    every other string that is neither RUNNING, nor fatal, nor one of the
    controller's own codes FATAL and PERMISSION DENIED). Then the wait has
    made [k] describe calls and [k] sleeps and is still polling; at the
    deadline (24 polls) it gives up with the timeout error; a status among
    STOPPING, STOPPED, TERMINATED, SUSPENDED in the next answer ends it with
    the fatal error, never with success; RUNNING ends it with success. *)
Theorem awaitRunning_by_status cloud name w k :
  (forall i, (i < k)%nat ->
     keepsPolling (getResp cloud (gets w + i)) = true) ->
  ((k <= 24)%nat ->
     waitForComputeServiceInstanceCompletion cloud name w
     = pollLoop (24 - k) (5 * Second) (instanceCondition cloud name)
         (polled (Get name) (5 * Second) k w))
  /\ (k = 24%nat ->
      waitForComputeServiceInstanceCompletion cloud name w
      = Returns (Some ErrPollTimeout) (polled (Get name) (5 * Second) 24 w))
  /\ ((k < 24)%nat ->
      forall inst, getResp cloud (gets w + k) = inr inst ->
        (inList (Status inst) ["STOPPING"; "STOPPED"; "TERMINATED"; "SUSPENDED"]
         = true ->
         waitForComputeServiceInstanceCompletion cloud name w
         = Returns
             (Some (ErrAlreadyExists name (Some (ErrStatus (Status inst)))))
             (called (Get name) (polled (Get name) (5 * Second) k w)))
        /\ (Status inst = "RUNNING" ->
            waitForComputeServiceInstanceCompletion cloud name w
            = Returns None
                (called (Get name) (polled (Get name) (5 * Second) k w)))).
Proof.
  intros Hk.
  assert (forall n, (k + n = 24)%nat ->
            waitForComputeServiceInstanceCompletion cloud name w
            = pollLoop n (5 * Second) (instanceCondition cloud name)
                (polled (Get name) (5 * Second) k w)) as Hgo.
  { intros n Hn. unfold waitForComputeServiceInstanceCompletion, PollImmediate.
    rewrite readiness_ticks, <- Hn. now apply readiness_goes_on. }
  split; [|split].
  - intros Hle. apply Hgo. lia.
  - intros ->. now rewrite (Hgo 0%nat eq_refl).
  - intros Hlt inst Hinst.
    rewrite (Hgo (S (23 - k)) ltac:(lia)).
    assert (getResp cloud (gets (polled (Get name) (5 * Second) k w))
            = inr inst) as Hat by now rewrite gets_polled.
    split.
    + intros Hf.
      now rewrite (pollLoop_last_tick _ _ _ _ _ _
                     (instanceCondition_fatal cloud name _ inst Hat Hf)).
    + intros Hr.
      now rewrite (pollLoop_last_tick _ _ _ _ _ _
                     (instanceCondition_running cloud name _ inst Hat Hr)).
Qed.

Lemma awaitRunning_by_status_witness :
  (forall i, (i < 1)%nat ->
     keepsPolling
       (getResp Scenario.foundStopped
          (gets (startWorld Scenario.emptyOutput) + i)) = true)
  /\ waitForComputeServiceInstanceCompletion Scenario.foundStopped
       "verifier-42" (startWorld Scenario.emptyOutput)
     = Returns
         (Some (ErrAlreadyExists "verifier-42" (Some (ErrStatus "STOPPED"))))
         (mkWorld Scenario.emptyOutput
            [Get "verifier-42"; Sleep (5 * Second); Get "verifier-42"]).
Proof.
  assert (forall i, (i < 1)%nat ->
            keepsPolling
              (getResp Scenario.foundStopped
                 (gets (startWorld Scenario.emptyOutput) + i)) = true) as H.
  { intros i Hi. assert (i = 0%nat) as -> by lia. reflexivity. }
  split; [exact H|].
  pose proof (awaitRunning_by_status Scenario.foundStopped "verifier-42"
                (startWorld Scenario.emptyOutput) 1 H) as (_ & _ & Hnext).
  destruct (Hnext ltac:(lia) (mkInstance "STOPPED" "fp") eq_refl)
    as [Hfatal _].
  exact (Hfatal eq_refl).
Defined.

(** C4, as the spec states it, fails for an unrecognized status that reads
    FATAL: the next answer would be RUNNING, but the wait does not poll
    again, it ends at once with an error. *)
Lemma status_reading_FATAL_ends_the_wait :
  inList "FATAL"
    ["PROVISIONING"; "STAGING"; "RUNNING";
     "STOPPING"; "STOPPED"; "TERMINATED"; "SUSPENDED"] = false
  /\ getResp Scenario.statusReadsFatal 0 = inr (mkInstance "FATAL" "fp")
  /\ getResp Scenario.statusReadsFatal 1 = inr (mkInstance "RUNNING" "fp")
  /\ waitForComputeServiceInstanceCompletion Scenario.statusReadsFatal
       "verifier-42" (startWorld Scenario.emptyOutput)
     = Returns (Some (ErrAlreadyExists "verifier-42" None))
         (mkWorld Scenario.emptyOutput [Get "verifier-42"]).
Proof. repeat split; reflexivity. Qed.

(** ** C10: an error of the describe call *)

(** C10. Whatever error the describe call of a poll returns, it is given the
    code PERMISSION DENIED, and the wait ends on that very call with the
    missing-permissions error: no sleep and no further describe call
    follows. *)
Theorem describe_error_aborts_wait cloud name w k e :
  (k < 24)%nat ->
  (forall i, (i < k)%nat ->
     keepsPolling (getResp cloud (gets w + i)) = true) ->
  getResp cloud (gets w + k) = inl e ->
  describeComputeServiceInstances cloud name
    (polled (Get name) (5 * Second) k w)
  = Returns ("PERMISSION DENIED", Some e)
      (called (Get name) (polled (Get name) (5 * Second) k w))
  /\ waitForComputeServiceInstanceCompletion cloud name w
     = Returns (Some (ErrMissingPermissions (Some e)))
         (called (Get name) (polled (Get name) (5 * Second) k w)).
Proof.
  intros Hlt Hk He.
  assert (getResp cloud (gets (polled (Get name) (5 * Second) k w)) = inl e)
    as Hat by now rewrite gets_polled.
  destruct (instanceCondition_error cloud name _ e Hat) as [Hd Hc].
  split; [exact Hd|].
  unfold waitForComputeServiceInstanceCompletion, PollImmediate.
  rewrite readiness_ticks.
  replace 24%nat with (k + S (23 - k))%nat by lia.
  rewrite (readiness_goes_on cloud name k _ w Hk).
  now rewrite (pollLoop_last_tick _ _ _ _ _ _ Hc).
Qed.

Lemma describe_error_aborts_wait_witness :
  (1 < 24)%nat
  /\ (forall i, (i < 1)%nat ->
        keepsPolling
          (getResp Scenario.describeFails
             (gets (startWorld Scenario.emptyOutput) + i)) = true)
  /\ getResp Scenario.describeFails
       (gets (startWorld Scenario.emptyOutput) + 1)
     = inl (ApiError 503 "try again")
  /\ waitForComputeServiceInstanceCompletion Scenario.describeFails
       "verifier-42" (startWorld Scenario.emptyOutput)
     = Returns
         (Some (ErrMissingPermissions (Some (ApiError 503 "try again"))))
         (mkWorld Scenario.emptyOutput
            [Get "verifier-42"; Sleep (5 * Second); Get "verifier-42"]).
Proof.
  assert (forall i, (i < 1)%nat ->
            keepsPolling
              (getResp Scenario.describeFails
                 (gets (startWorld Scenario.emptyOutput) + i)) = true) as H.
  { intros i Hi. assert (i = 0%nat) as -> by lia. reflexivity. }
  split; [lia|]. split; [exact H|]. split; [reflexivity|].
  exact (proj2 (describe_error_aborts_wait Scenario.describeFails
                  "verifier-42" (startWorld Scenario.emptyOutput) 1
                  (ApiError 503 "try again") ltac:(lia) H eq_refl)).
Defined.

(** ** Creation of the instance *)

Lemma gets_called_other call w :
  isGet call = false -> gets (called call w) = gets w.
Proof.
  intros H. unfold gets, called. rewrite countCalls_snoc, H. lia.
Qed.

Lemma gets_called_Get name w : gets (called (Get name) w) = S (gets w).
Proof. unfold gets, called. rewrite countCalls_snoc. simpl. lia. Qed.

Lemma create_succeeds cloud c input w inst :
  insertErr cloud = None ->
  getResp cloud (gets w) = inr inst ->
  setLabelsErr cloud = None ->
  createComputeServiceInstance cloud c input w
  = Returns (input, None)
      (called (SetLabels (instanceName input) (LabelFingerprint inst) (tags c))
         (called (Get (instanceName input))
            (called (Insert (requestOf c input)) w))).
Proof.
  intros Hi Hg Hl.
  unfold createComputeServiceInstance, Instances_Insert, Instances_SetLabels,
    Instances_Get, record, mbind, M_bind, mret, M_ret.
  rewrite Hi. cbn [output calls].
  change (mkWorld (output w) (calls w ++ [Insert ?r]))
    with (called (Insert r) w).
  fold (gets (called (Insert (requestOf c input)) w)).
  rewrite gets_called_other by reflexivity. rewrite Hg. cbn [deref].
  unfold mret, M_ret. now rewrite Hl.
Qed.

Lemma create_panics cloud c input w e :
  insertErr cloud = None ->
  getResp cloud (gets w) = inl e ->
  createComputeServiceInstance cloud c input w
  = Panics (called (Get (instanceName input))
              (called (Insert (requestOf c input)) w)).
Proof.
  intros Hi Hg.
  unfold createComputeServiceInstance, Instances_Insert, Instances_SetLabels,
    Instances_Get, record, mbind, M_bind, mret, M_ret.
  rewrite Hi. cbn [output calls].
  change (mkWorld (output w) (calls w ++ [Insert ?r]))
    with (called (Insert r) w).
  fold (gets (called (Insert (requestOf c input)) w)).
  rewrite gets_called_other by reflexivity. now rewrite Hg.
Qed.

(** ** Runs that return *)

Lemma validateEgress_unfold rt cloud c subnet image kms timeout p :
  validateEgress rt cloud c subnet image kms timeout p
  = createComputeServiceInstance cloud c
      (inputOf rt c subnet image timeout p)
    ≫= afterCreate cloud.
Proof. reflexivity. Qed.

Lemma returns_ret {A : Type} (a : A) : returns (mret a).
Proof. intros w. now exists a, w. Qed.

Lemma returns_bind {A B : Type} (m : M A) (f : A -> M B) :
  returns m -> (forall a, returns (f a)) -> returns (m ≫= f).
Proof.
  intros Hm Hf w. destruct (Hm w) as (a & w1 & H1).
  rewrite (bind_Returns _ _ _ _ _ H1). apply Hf.
Qed.

Lemma returns_record call : returns (record call).
Proof. intros w. now eexists _, _. Qed.

Lemma returns_updateOutput f : returns (updateOutput f).
Proof. intros w. now eexists _, _. Qed.

Lemma returns_readOutput : returns readOutput.
Proof. intros w. now eexists _, _. Qed.

Lemma returns_Get cloud name : returns (Instances_Get cloud name).
Proof. intros w. now eexists _, _. Qed.

Lemma returns_GetSerialPortOutput cloud name :
  returns (Instances_GetSerialPortOutput cloud name).
Proof. intros w. now eexists _, _. Qed.

Lemma returns_terminate cloud name :
  returns (terminateComputeServiceInstance cloud name).
Proof. intros w. now eexists _, _. Qed.

Create HintDb returns.

#[local] Hint Resolve returns_ret returns_record returns_updateOutput
  returns_readOutput returns_Get returns_GetSerialPortOutput
  returns_terminate : returns.

Lemma returns_pollLoop ticks interval condition :
  returns condition -> returns (pollLoop ticks interval condition).
Proof.
  intros Hc. induction ticks as [|n IH]; cbn [pollLoop].
  - apply returns_ret.
  - apply returns_bind; [exact Hc|].
    intros [[|] [e|]]; try apply returns_ret.
    apply returns_bind; [apply returns_record|]. intros _. exact IH.
Qed.

Lemma returns_instanceCondition cloud name :
  returns (instanceCondition cloud name).
Proof.
  unfold instanceCondition, describeComputeServiceInstances.
  apply returns_bind.
  - apply returns_bind; [apply returns_Get|].
    intros [e|i]; [apply returns_ret|].
    destruct (inList _ _); apply returns_ret.
  - intros [code descError]; cbn [fst snd].
    repeat (match goal with |- context [String.eqb ?a ?b] =>
              destruct (String.eqb a b) end; [apply returns_ret|]).
    destruct descError; apply returns_ret.
Qed.

Lemma returns_consoleCondition cloud name :
  returns (consoleCondition cloud name).
Proof.
  unfold consoleCondition.
  apply returns_bind; [apply returns_GetSerialPortOutput|].
  intros [e|[out|]]; try apply returns_ret.
  destruct (_ <? 1)%nat; [apply returns_ret|].
  destruct (_ <? 1)%nat; [apply returns_ret|].
  apply returns_bind.
  - destruct (0 <? _)%nat; auto with returns.
  - intros _. apply returns_bind; auto with returns.
Qed.

Lemma returns_returnAddError err : returns (returnAddError err).
Proof. unfold returnAddError. apply returns_bind; auto with returns. Qed.

Lemma returns_afterCreate cloud r : returns (afterCreate cloud r).
Proof.
  unfold afterCreate. destruct (snd r) as [e|].
  - apply returns_bind; [apply returns_terminate|].
    intros _. apply returns_returnAddError.
  - apply returns_bind.
    { apply returns_pollLoop, returns_instanceCondition. }
    intros [e|].
    + apply returns_bind; [apply returns_terminate|].
      intros _. apply returns_returnAddError.
    + apply returns_bind.
      { apply returns_pollLoop, returns_consoleCondition. }
      intros err. apply returns_bind.
      { destruct err; auto with returns. }
      intros _. apply returns_bind; auto with returns.
Qed.

(** The create step returns unless the fingerprint lookup fails. *)
Lemma create_returns cloud c input w :
  insertErr cloud <> None \/ (exists inst, getResp cloud (gets w) = inr inst) ->
  exists err w1,
    createComputeServiceInstance cloud c input w = Returns (input, err) w1.
Proof.
  intros H. destruct (insertErr cloud) as [e|] eqn:Hi.
  - eexists _, _.
    unfold createComputeServiceInstance, Instances_Insert, record, mbind,
      M_bind, mret, M_ret. rewrite Hi. reflexivity.
  - destruct H as [H|[inst Hg]]; [now contradict H|].
    destruct (setLabelsErr cloud) as [e|] eqn:Hl.
    + eexists _, _.
      unfold createComputeServiceInstance, Instances_Insert,
        Instances_SetLabels, Instances_Get, record, mbind, M_bind, mret, M_ret.
      rewrite Hi. cbn [output calls].
      change (mkWorld (output w) (calls w ++ [Insert ?r]))
        with (called (Insert r) w).
      fold (gets (called (Insert (requestOf c input)) w)).
      rewrite gets_called_other by reflexivity. rewrite Hg. cbn [deref].
      unfold mret, M_ret. rewrite Hl. reflexivity.
    + eexists _, _. exact (create_succeeds cloud c input w inst Hi Hg Hl).
Qed.

(** ** C1: termination of the instance on every exit path *)

(** C1, as the code has it. Unless the fingerprint lookup fails after a
    successful [Insert] (the panic of C9), a run of [validateEgress] returns
    and has called [Stop] exactly once, whichever exit it took: a failed
    create (where line 365 does call terminate, with the requested name), a
    failed readiness wait, and the end of the analysis, successful or not. *)
Theorem validateEgress_terminates_once
    rt cloud c subnet image kms timeout p w :
  insertErr cloud <> None \/ (exists inst, getResp cloud (gets w) = inr inst) ->
  exists out w',
    validateEgress rt cloud c subnet image kms timeout p w = Returns out w'
    /\ stops w' = (stops w + 1)%nat.
Proof.
  intros H.
  destruct (create_returns cloud c (inputOf rt c subnet image timeout p) w H)
    as (err & w1 & Hc).
  destruct (returns_afterCreate cloud
              (inputOf rt c subnet image timeout p, err) w1)
    as (out & w' & Hr).
  exists out, w'.
  assert (validateEgress rt cloud c subnet image kms timeout p w
          = Returns out w') as Hv.
  { rewrite validateEgress_unfold.
    now rewrite (bind_Returns _ _ _ _ _ Hc). }
  split; [exact Hv|].
  pose proof (stopsBy_validateEgress rt cloud c subnet image kms timeout p w)
    as Hs.
  now rewrite Hv in Hs.
Qed.

Lemma validateEgress_terminates_once_witness :
  (insertErr Scenario.probeFinds <> None
   \/ exists inst,
        getResp Scenario.probeFinds (gets (startWorld Scenario.emptyOutput))
        = inr inst)
  /\ exists out w',
       Scenario.run Scenario.probeFinds = Returns out w'
       /\ stops w' = (stops (startWorld Scenario.emptyOutput) + 1)%nat.
Proof.
  assert (insertErr Scenario.probeFinds <> None
          \/ exists inst,
               getResp Scenario.probeFinds
                 (gets (startWorld Scenario.emptyOutput)) = inr inst) as H.
  { right. eexists. reflexivity. }
  split; [exact H|].
  exact (validateEgress_terminates_once Scenario.rt Scenario.probeFinds
           Scenario.client "subnet-1" "" "" Scenario.timeout Scenario.proxy
           (startWorld Scenario.emptyOutput) H).
Defined.

(** C1, as the spec states it, fails on the create-failure exit: when
    [Instances.Insert] is refused the run still calls [Stop] once. *)
Lemma create_failure_calls_terminate :
  insertErr Scenario.insertRefused
  = Some (ApiError 400 "invalid subnetwork")
  /\ exists req w',
       Scenario.run Scenario.insertRefused
       = Returns
           (mkOutput [] []
              [ErrUnableToCreateInstance (ApiError 400 "invalid subnetwork")])
           w'
       /\ calls w' = [Insert req; Stop "verifier-42"]
       /\ stops w' = 1%nat.
Proof.
  split; [reflexivity|].
  eexists _, _. split; [vm_compute; reflexivity|].
  split; reflexivity.
Qed.

(** ** C2: the deadline of the readiness wait *)

Lemma terminate_run cloud name w :
  terminateComputeServiceInstance cloud name w
  = Returns tt
      (mkWorld (Output_AddError (stopErr cloud) (output w))
         (calls w ++ [Stop name])).
Proof. reflexivity. Qed.

Lemma wait_times_out cloud name w :
  (forall i, (i < 24)%nat ->
     keepsPolling (getResp cloud (gets w + i)) = true) ->
  waitForComputeServiceInstanceCompletion cloud name w
  = Returns (Some ErrPollTimeout) (polled (Get name) (5 * Second) 24 w).
Proof.
  intros H. unfold waitForComputeServiceInstanceCompletion, PollImmediate.
  rewrite readiness_ticks. change 24%nat with (24 + 0)%nat at 1.
  now rewrite (readiness_goes_on cloud name 24 0 w H).
Qed.

(** C2, as the code has it: whatever per-request timeout [validateEgress] is
    called with, the readiness wait polls every five seconds against a
    deadline of two minutes. On an instance that never becomes ready the
    run makes 24 describe calls, each followed by a sleep of five seconds,
    records the timeout error and terminates the instance. *)
Theorem readiness_deadline_is_two_minutes
    rt cloud c subnet image kms timeout p w inst :
  insertErr cloud = None ->
  getResp cloud (gets w) = inr inst ->
  setLabelsErr cloud = None ->
  (forall i, (i < 24)%nat ->
     keepsPolling (getResp cloud (gets w + 1 + i)) = true) ->
  let name := instanceNameOf rt in
  exists req out w',
    validateEgress rt cloud c subnet image kms timeout p w = Returns out w'
    /\ calls w'
       = calls w
         ++ [Insert req; Get name;
             SetLabels name (LabelFingerprint inst) (tags c)]
         ++ tickThenSleep (Get name) (5 * Second) 24
         ++ [Stop name]
    /\ slept w' = slept w + 2 * Minute
    /\ errors out
       = errors (output w) ++ option_list (stopErr cloud) ++ [ErrPollTimeout].
Proof.
  intros Hi Hg Hl Hk name.
  set (input := inputOf rt c subnet image timeout p).
  pose proof (create_succeeds cloud c input w inst Hi Hg Hl) as Hc.
  set (w1 := called (SetLabels _ _ _) _) in Hc.
  assert (gets w1 = S (gets w)) as Hg1.
  { unfold w1. rewrite gets_called_other by reflexivity.
    rewrite gets_called_Get. now rewrite gets_called_other by reflexivity. }
  assert (waitForComputeServiceInstanceCompletion cloud name w1
          = Returns (Some ErrPollTimeout)
              (polled (Get name) (5 * Second) 24 w1)) as Hw.
  { apply wait_times_out. intros i Hlt. rewrite Hg1.
    replace (S (gets w) + i)%nat with (gets w + 1 + i)%nat by lia.
    now apply Hk. }
  set (w2 := polled (Get name) (5 * Second) 24 w1) in Hw.
  exists (requestOf c input).
  exists (Output_AddError (Some ErrPollTimeout)
            (Output_AddError (stopErr cloud) (output w))).
  exists (mkWorld
            (Output_AddError (Some ErrPollTimeout)
               (Output_AddError (stopErr cloud) (output w)))
            (calls w2 ++ [Stop name])).
  split; [|split; [|split]].
  - rewrite validateEgress_unfold. fold input.
    rewrite (bind_Returns _ _ _ _ _ Hc). unfold afterCreate. cbn [fst snd].
    change (instanceName input) with name.
    rewrite (bind_Returns _ _ _ _ _ Hw).
    rewrite (bind_Returns _ _ _ _ _ (terminate_run cloud name w2)).
    reflexivity.
  - cbn [calls]. unfold w2, polled, w1, called. cbn [calls output].
    now rewrite <- !app_assoc.
  - rewrite slept_app.
    change (slept (mkWorld _ (calls w2))) with (slept w2).
    unfold w2. rewrite slept_polled by reflexivity.
    unfold w1, called. cbn [output calls]. rewrite !slept_app, world_eta.
    unfold slept. cbn. unfold Minute, Second. lia.
  - unfold Output_AddError. destruct (stopErr cloud); cbn.
    + now rewrite <- app_assoc.
    + reflexivity.
Qed.

Lemma readiness_deadline_is_two_minutes_witness :
  insertErr Scenario.neverReady = None
  /\ getResp Scenario.neverReady (gets (startWorld Scenario.emptyOutput))
     = inr (mkInstance "PROVISIONING" "fp")
  /\ setLabelsErr Scenario.neverReady = None
  /\ (forall i, (i < 24)%nat ->
        keepsPolling
          (getResp Scenario.neverReady
             (gets (startWorld Scenario.emptyOutput) + 1 + i)) = true)
  /\ exists req out w',
       Scenario.run Scenario.neverReady = Returns out w'
       /\ calls w'
          = calls (startWorld Scenario.emptyOutput)
            ++ [Insert req; Get "verifier-42";
                SetLabels "verifier-42" "fp" (tags Scenario.client)]
            ++ tickThenSleep (Get "verifier-42") (5 * Second) 24
            ++ [Stop "verifier-42"]
       /\ slept w' = slept (startWorld Scenario.emptyOutput) + 2 * Minute
       /\ errors out
          = errors (output (startWorld Scenario.emptyOutput))
            ++ option_list (stopErr Scenario.neverReady) ++ [ErrPollTimeout].
Proof.
  split; [reflexivity|]. split; [reflexivity|]. split; [reflexivity|].
  split; [intros i _; reflexivity|].
  exact (readiness_deadline_is_two_minutes Scenario.rt Scenario.neverReady
           Scenario.client "subnet-1" "" "" Scenario.timeout Scenario.proxy
           (startWorld Scenario.emptyOutput) (mkInstance "PROVISIONING" "fp")
           eq_refl eq_refl eq_refl (fun i _ => eq_refl)).
Defined.

(** C2, as the spec states it, fails: called with a timeout of ten seconds,
    a deadline of ten seconds would allow two polls; the run makes 24 (and
    one more [Get] for the label fingerprint) and sleeps two minutes. *)
Lemma readiness_wait_ignores_request_timeout :
  Scenario.timeout = 10 * Second
  /\ (exists out w',
        Scenario.run Scenario.neverReady = Returns out w'
        /\ gets w' = 25%nat /\ slept w' = 2 * Minute)
  /\ (exists w',
        awaitRunning_spec Scenario.neverReady Scenario.timeout "verifier-42"
          (startWorld Scenario.emptyOutput)
        = Returns (Some ErrPollTimeout) w'
        /\ gets w' = 2%nat /\ slept w' = Scenario.timeout)
  /\ waitForComputeServiceInstanceCompletion Scenario.neverReady "verifier-42"
       (startWorld Scenario.emptyOutput)
     <> awaitRunning_spec Scenario.neverReady Scenario.timeout "verifier-42"
          (startWorld Scenario.emptyOutput).
Proof.
  split; [reflexivity|]. split; [|split].
  - eexists _, _. split; [vm_compute; reflexivity|]. split; reflexivity.
  - eexists. split; [vm_compute; reflexivity|]. split; reflexivity.
  - intros H.
    apply (f_equal (fun o => match o with
                             | Returns _ w' => gets w'
                             | Panics _ => 0%nat
                             end)) in H.
    vm_compute in H. discriminate H.
Qed.

(** ** The console contents inside the scanned text *)

Lemma prefix_contains needle s :
  String.prefix needle s = true -> Text.contains needle s = true.
Proof. intros H. destruct s; simpl in *; now rewrite H. Qed.

Lemma contains_cons needle ch s :
  Text.contains needle s = true -> Text.contains needle (String ch s) = true.
Proof.
  intros H. cbn [Text.contains]. rewrite H. apply orb_true_r.
Qed.

Lemma contains_app_r needle a b :
  Text.contains needle b = true -> Text.contains needle (a +:+ b) = true.
Proof.
  intros H. induction a as [|ch a IH]; [exact H|].
  cbn [String.append]. now apply contains_cons.
Qed.

Lemma prefix_app_l needle a b :
  String.prefix needle a = true -> String.prefix needle (a +:+ b) = true.
Proof.
  revert a. induction needle as [|x needle IH]; intros a H.
  - now destruct (a +:+ b).
  - destruct a as [|y a]; [discriminate H|].
    simpl in *.
    destruct (ascii_dec x y); [now apply IH|discriminate H].
Qed.

Lemma contains_app_l needle a b :
  Text.contains needle a = true -> Text.contains needle (a +:+ b) = true.
Proof.
  induction a as [|ch a IH]; intros H.
  - apply prefix_contains. cbn in H. rewrite orb_false_r in H.
    destruct needle; [now destruct b|discriminate H].
  - cbn [Text.contains] in H. apply orb_true_iff in H as [H|H].
    + apply prefix_contains. now apply prefix_app_l.
    + cbn [String.append]. apply contains_cons. now apply IH.
Qed.

Lemma quoteByte_plain ch :
  isPlain ch = true -> GoFmt.quoteByte ch = String ch EmptyString.
Proof.
  unfold isPlain, GoFmt.quoteByte. intros H.
  apply andb_true_iff in H as [H H92]. apply andb_true_iff in H as [H H34].
  apply negb_true_iff in H92, H34. now rewrite H34, H92, H.
Qed.

Lemma quoteBody_plain_prefix needle s :
  plain needle = true ->
  String.prefix needle s = true ->
  String.prefix needle (GoFmt.quoteBody s) = true.
Proof.
  revert s. induction needle as [|x needle IH]; intros s Hp H.
  - now destruct (GoFmt.quoteBody s).
  - destruct s as [|y s]; [discriminate H|].
    cbn [String.prefix] in H.
    destruct (ascii_dec x y) as [<-|]; [|discriminate H].
    unfold plain in Hp. cbn [list_ascii_of_string forallb] in Hp.
    apply andb_true_iff in Hp as [Hx Hp].
    cbn [GoFmt.quoteBody]. rewrite (quoteByte_plain x Hx).
    change (String x EmptyString +:+ GoFmt.quoteBody s)
      with (String x (GoFmt.quoteBody s)).
    change (String.prefix (String x needle) (String x (GoFmt.quoteBody s)))
      with (if ascii_dec x x
            then String.prefix needle (GoFmt.quoteBody s) else false).
    destruct (ascii_dec x x); [now apply IH|contradiction].
Qed.

Lemma quoteBody_plain_contains needle s :
  plain needle = true ->
  Text.contains needle s = true ->
  Text.contains needle (GoFmt.quoteBody s) = true.
Proof.
  intros Hp. induction s as [|ch s IH]; intros H.
  - apply prefix_contains, quoteBody_plain_prefix; [exact Hp|].
    cbn in H. now rewrite orb_false_r in H.
  - cbn [Text.contains] in H. apply orb_true_iff in H as [H|H].
    + now apply prefix_contains, quoteBody_plain_prefix.
    + cbn [GoFmt.quoteBody]. apply contains_app_r. now apply IH.
Qed.

(** A word of plain bytes that the console contents hold is found in the
    scanned text as well; so are the completion marker and the four failure
    indicators. *)
Lemma contents_show_in_text needle out :
  plain needle = true ->
  Text.contains needle (Contents out) = true ->
  Text.contains needle (Sprintf_sharp_v out) = true.
Proof.
  intros Hp H. unfold Sprintf_sharp_v, GoFmt.quote.
  apply contains_app_r. cbn [String.append]. apply contains_cons.
  do 2 apply contains_app_l. now apply quoteBody_plain_contains.
Qed.

Lemma marker_in_contents_is_seen out :
  Text.contains userdataEndVerifier (Contents out) = true ->
  Text.contains userdataEndVerifier (Sprintf_sharp_v out) = true.
Proof. now apply contents_show_in_text. Qed.

(** ** One tick of the console-log analyzer *)


Lemma Sprintf_sharp_v_nonempty out :
  (String.length (Sprintf_sharp_v out) <? 1)%nat = false.
Proof. reflexivity. Qed.

Section ConsoleTick.

Variable cloud : Cloud.
Variable name : string.

Lemma consoleCondition_not_yet w :
  notYetComplete (serialResp cloud (reads w)) = true ->
  consoleCondition cloud name w
  = Returns (false, None) (called (GetSerialPortOutput name) w).
Proof.
  unfold notYetComplete, consoleCondition, Instances_GetSerialPortOutput,
    mbind, M_bind, reads.
  destruct (serialResp cloud _) as [e|[out|]]; [discriminate| |reflexivity].
  intros H. apply negb_true_iff in H.
  rewrite Sprintf_sharp_v_nonempty.
  unfold Regexp.findLiteral, reVerify. now rewrite H.
Qed.


Lemma reads_polled k w :
  reads (polled (GetSerialPortOutput name) (30 * Second) k w)
  = (reads w + k)%nat.
Proof.
  unfold reads. rewrite countCalls_polled by reflexivity.
  cbn [isGetSerialPortOutput]. lia.
Qed.

Lemma analysis_goes_on k n w :
  (forall i, (i < k)%nat ->
     notYetComplete (serialResp cloud (reads w + i)) = true) ->
  pollLoop (k + n) (30 * Second) (consoleCondition cloud name) w
  = pollLoop n (30 * Second) (consoleCondition cloud name)
      (polled (GetSerialPortOutput name) (30 * Second) k w).
Proof.
  intros H. apply pollLoop_goes_on. intros i Hi.
  apply consoleCondition_not_yet. rewrite reads_polled. now apply H.
Qed.

End ConsoleTick.

(** ** C5: nothing is parsed before the marker *)



(** ** C6: one aggregate connectivity failure *)



(** ** C3: what is recorded as an unreachable endpoint *)






(** ** C9: the label fingerprint is read from a failed lookup *)

(** C9 does not hold of the code. After a successful [Insert], when the
    [Get] that fetches the label fingerprint fails, the error is only
    logged; [inst] is nil and reading [inst.LabelFingerprint] panics:
    [SetLabels] is never reached and the function does not return. *)
Theorem failed_fingerprint_lookup_is_dereferenced cloud c input w e :
  insertErr cloud = None ->
  getResp cloud (gets w) = inl e ->
  createComputeServiceInstance cloud c input w
  = Panics (mkWorld (output w)
              (calls w ++ [Insert (requestOf c input); Get (instanceName input)])).
Proof.
  intros Hi Hg. rewrite (create_panics cloud c input w e Hi Hg).
  unfold called. cbn [output calls]. now rewrite <- app_assoc.
Qed.

Lemma failed_fingerprint_lookup_is_dereferenced_witness :
  insertErr Scenario.fingerprintGetFails = None
  /\ getResp Scenario.fingerprintGetFails
       (gets (startWorld Scenario.emptyOutput))
     = inl (ApiError 503 "backend unavailable")
  /\ createComputeServiceInstance Scenario.fingerprintGetFails Scenario.client
       (inputOf Scenario.rt Scenario.client "subnet-1" "" Scenario.timeout
          Scenario.proxy)
       (startWorld Scenario.emptyOutput)
     = Panics
         (mkWorld Scenario.emptyOutput
            [Insert
               (requestOf Scenario.client
                  (inputOf Scenario.rt Scenario.client "subnet-1" ""
                     Scenario.timeout Scenario.proxy));
             Get "verifier-42"]).
Proof.
  split; [reflexivity|]. split; [reflexivity|].
  exact (failed_fingerprint_lookup_is_dereferenced
           Scenario.fingerprintGetFails Scenario.client
           (inputOf Scenario.rt Scenario.client "subnet-1" "" Scenario.timeout
              Scenario.proxy)
           (startWorld Scenario.emptyOutput)
           (ApiError 503 "backend unavailable") eq_refl eq_refl).
Defined.

(** ** C7: the caller always receives the result *)

(** C7 does not hold of the code, by the defect of C9: when the fingerprint
    lookup fails after a successful [Insert], [validateEgress] panics after
    two calls. No result is returned, nothing is recorded on [c.output],
    and the instance that was created is not terminated. *)
Theorem validateEgress_panics_on_failed_fingerprint_lookup :
  Scenario.run Scenario.fingerprintGetFails
  = Panics
      (mkWorld Scenario.emptyOutput
         [Insert
            (requestOf Scenario.client
               (inputOf Scenario.rt Scenario.client "subnet-1" ""
                  Scenario.timeout Scenario.proxy));
          Get "verifier-42"]).
Proof. vm_compute. reflexivity. Qed.

(** ** C8: one completion marker *)


(** ** The construction of the client *)

Lemma inList_In s l : inList s l = true <-> In s l.
Proof.
  unfold inList. rewrite existsb_exists. split.
  - intros (x & Hx & He). apply String.eqb_eq in He. now subst.
  - intros H. exists s. split; [exact H|apply String.eqb_refl].
Qed.

Lemma inList_app s l1 l2 : inList s (l1 ++ l2) = inList s l1 || inList s l2.
Proof. unfold inList. apply existsb_app. Qed.

Lemma scanPage_found instanceType names found :
  scanPage instanceType names found = found || inList instanceType names.
Proof.
  induction names as [|m names IH]; cbn [scanPage].
  - now rewrite orb_false_r.
  - unfold inList. cbn [existsb]. fold (inList instanceType names).
    rewrite (String.eqb_sym instanceType m).
    destruct (String.eqb m instanceType); [now rewrite orb_true_r|].
    exact IH.
Qed.

Lemma Pages_scan instanceType listing found :
  MachineTypes_Pages listing
    (fun names found => (scanPage instanceType names found, None)) found
  = (found || inList instanceType (listedNames listing),
     listingError listing).
Proof.
  revert found. induction listing as [err|names|names rest IH]; intros found.
  - cbn. now rewrite orb_false_r.
  - cbn. now rewrite scanPage_found.
  - cbn [MachineTypes_Pages listedNames listingError].
    rewrite IH, scanPage_found, inList_app. now rewrite orb_assoc.
Qed.

Lemma validateMachineType_eq computeService c :
  validateMachineType computeService c
  = match listingError
            (MachineTypes_List computeService (projectID c) (zone c)) with
    | Some e => Some (ErrUnableToGatherList e)
    | None =>
        if inList (instanceType c)
             (listedNames
                (MachineTypes_List computeService (projectID c) (zone c)))
        then None
        else Some (ErrInstanceTypeNotFound (instanceType c))
    end.
Proof. unfold validateMachineType. now rewrite Pages_scan. Qed.

(** X1. [validateMachineType] accepts the instance type exactly when every
    page of the listing is received and one of them names the type. An
    error of any request makes it fail with the gather error, also when an
    earlier page named the type; a complete listing without the type makes
    it fail with the not-found error. *)
Theorem validateMachineType_accepts computeService c :
  let listing := MachineTypes_List computeService (projectID c) (zone c) in
  (validateMachineType computeService c = None
   <-> listingError listing = None
       /\ In (instanceType c) (listedNames listing))
  /\ (forall e, listingError listing = Some e ->
        validateMachineType computeService c = Some (ErrUnableToGatherList e))
  /\ (listingError listing = None ->
      ~ In (instanceType c) (listedNames listing) ->
      validateMachineType computeService c
      = Some (ErrInstanceTypeNotFound (instanceType c))).
Proof.
  intros listing. rewrite validateMachineType_eq. fold listing.
  destruct (listingError listing) as [e|].
  - split; [|split].
    + split; [discriminate|intros [H _]; discriminate H].
    + now intros e' [= ->].
    + discriminate.
  - destruct (inList (instanceType c) (listedNames listing)) eqn:Hin.
    + apply inList_In in Hin. split; [|split].
      * split; [now split|reflexivity].
      * discriminate.
      * intros _ Hn. now contradict Hn.
    + assert (~ In (instanceType c) (listedNames listing)) as Hn.
      { intros H. apply inList_In in H. congruence. }
      split; [|split].
      * split; [discriminate|intros [_ H]; now contradict Hn].
      * discriminate.
      * reflexivity.
Qed.

(** X2. [newClient] builds a client exactly when the service is created,
    the credentials are there and the machine types of zone b of the region
    (of the project of the credentials) are listed completely and name the
    instance type. The client then has that project, the region, zone
    region-b, the instance type and the tags, and an empty output. *)
Theorem newClient_builds newService credentials region machine tags
    c computeService out :
  newClient newService credentials region machine tags
  = Built c computeService out
  <-> exists cred,
        newService = inr computeService
        /\ credentials = Some cred
        /\ c = mkClient (ProjectID cred) region (region +:+ "-b")
                 machine tags
        /\ out = mkOutput [] [] []
        /\ listingError
             (MachineTypes_List computeService (ProjectID cred)
                (region +:+ "-b")) = None
        /\ In machine
             (listedNames
                (MachineTypes_List computeService (ProjectID cred)
                   (region +:+ "-b"))).
Proof.
  unfold newClient. split.
  - destruct newService as [err|svc]; [discriminate|].
    destruct credentials as [cred|]; [|discriminate].
    rewrite validateMachineType_eq. cbn [projectID zone instanceType].
    destruct (listingError _) as [e|] eqn:He; [discriminate|].
    destruct (inList _ _) eqn:Hin; [|discriminate].
    intros [= <- <- <-]. exists cred.
    repeat split; try reflexivity; [exact He|now apply inList_In].
  - intros (cred & -> & -> & -> & -> & He & Hin).
    rewrite validateMachineType_eq. cbn [projectID zone instanceType].
    rewrite He. apply inList_In in Hin. now rewrite Hin.
Qed.

(** X3. With the service created and the credentials there, a listing that
    fails or that lacks the instance type makes [newClient] refuse with the
    invalid-instance-type error around the cause; an error of
    [computev1.NewService] is returned as it is, whatever the credentials;
    nil credentials panic once the service exists. *)
Theorem newClient_refuses computeService cred region machine tags :
  let listing :=
    MachineTypes_List computeService (ProjectID cred) (region +:+ "-b") in
  (forall e, listingError listing = Some e ->
     newClient (inr computeService) (Some cred) region machine tags
     = Refused (ErrInstanceTypeInvalid machine (ErrUnableToGatherList e)))
  /\ (listingError listing = None ->
      ~ In machine (listedNames listing) ->
      newClient (inr computeService) (Some cred) region machine tags
      = Refused
          (ErrInstanceTypeInvalid machine
             (ErrInstanceTypeNotFound machine)))
  /\ (forall err credentials,
        newClient (inl err) credentials region machine tags
        = Refused (ServiceError err))
  /\ newClient (inr computeService) None region machine tags
     = NewClientPanics.
Proof.
  intros listing. unfold newClient.
  rewrite validateMachineType_eq. cbn [projectID zone instanceType].
  fold listing. split; [|split; [|split]]; try reflexivity.
  - intros e ->. reflexivity.
  - intros -> Hn.
    destruct (inList machine (listedNames listing)) eqn:Hin;
      [|reflexivity].
    apply inList_In in Hin. now contradict Hn.
Qed.

Lemma validateMachineType_accepts_witness :
  listingError
    (MachineTypes_List (Setup.service Setup.secondPageFails)
       (projectID Scenario.client) (zone Scenario.client))
  = Some (ApiError 503 "backend unavailable")
  /\ In (instanceType Scenario.client)
       (listedNames
          (MachineTypes_List (Setup.service Setup.secondPageFails)
             (projectID Scenario.client) (zone Scenario.client)))
  /\ validateMachineType (Setup.service Setup.secondPageFails) Scenario.client
     = Some (ErrUnableToGatherList (ApiError 503 "backend unavailable")).
Proof.
  split; [reflexivity|]. split; [right; left; reflexivity|].
  destruct (validateMachineType_accepts
              (Setup.service Setup.secondPageFails) Scenario.client)
    as (_ & Hfail & _).
  exact (Hfail (ApiError 503 "backend unavailable") eq_refl).
Defined.

Lemma newClient_builds_witness :
  newClient (inr (Setup.service Setup.twoPages)) (Some (mkCredentials "proj"))
    "us-east1" "e2-standard-2" ∅
  = Built Scenario.client (Setup.service Setup.twoPages) (mkOutput [] [] []).
Proof.
  apply (proj2 (newClient_builds (inr (Setup.service Setup.twoPages))
                  (Some (mkCredentials "proj")) "us-east1" "e2-standard-2" ∅
                  Scenario.client (Setup.service Setup.twoPages)
                  (mkOutput [] [] []))).
  exists (mkCredentials "proj").
  repeat split; try reflexivity. right; left; reflexivity.
Defined.

Lemma newClient_refuses_witness :
  listingError
    (MachineTypes_List (Setup.service Setup.twoPages) "proj"
       ("us-west1" +:+ "-b"))
  = Some (ApiError 404 "unknown zone")
  /\ newClient (inr (Setup.service Setup.twoPages)) (Some (mkCredentials "proj"))
       "us-west1" "e2-standard-2" ∅
     = Refused
         (ErrInstanceTypeInvalid "e2-standard-2"
            (ErrUnableToGatherList (ApiError 404 "unknown zone"))).
Proof.
  split; [reflexivity|].
  destruct (newClient_refuses (Setup.service Setup.twoPages)
              (mkCredentials "proj") "us-west1" "e2-standard-2" ∅)
    as (Hfail & _).
  exact (Hfail (ApiError 404 "unknown zone") eq_refl).
Defined.

(** ** The exits of a run, one by one *)

Lemma returnAddError_run err w :
  returnAddError err w
  = Returns (Output_AddError err (output w))
      (mkWorld (Output_AddError err (output w)) (calls w)).
Proof. reflexivity. Qed.

Lemma create_insert_refused cloud c input w e :
  insertErr cloud = Some e ->
  createComputeServiceInstance cloud c input w
  = Returns (input, Some (ErrUnableToCreateInstance e))
      (called (Insert (requestOf c input)) w).
Proof.
  intros Hi.
  unfold createComputeServiceInstance, Instances_Insert, record, mbind,
    M_bind, mret, M_ret. now rewrite Hi.
Qed.

Lemma create_labels_refused cloud c input w inst e :
  insertErr cloud = None ->
  getResp cloud (gets w) = inr inst ->
  setLabelsErr cloud = Some e ->
  createComputeServiceInstance cloud c input w
  = Returns (input, Some (ErrUnableToCreateLabels e))
      (called (SetLabels (instanceName input) (LabelFingerprint inst) (tags c))
         (called (Get (instanceName input))
            (called (Insert (requestOf c input)) w))).
Proof.
  intros Hi Hg Hl.
  unfold createComputeServiceInstance, Instances_Insert, Instances_SetLabels,
    Instances_Get, record, mbind, M_bind, mret, M_ret.
  rewrite Hi. cbn [output calls].
  change (mkWorld (output w) (calls w ++ [Insert ?r]))
    with (called (Insert r) w).
  fold (gets (called (Insert (requestOf c input)) w)).
  rewrite gets_called_other by reflexivity. rewrite Hg. cbn [deref].
  unfold mret, M_ret. now rewrite Hl.
Qed.

Lemma run_after_create rt cloud c subnet image kms timeout p w r w1 :
  createComputeServiceInstance cloud c (inputOf rt c subnet image timeout p) w
  = Returns r w1 ->
  validateEgress rt cloud c subnet image kms timeout p w
  = afterCreate cloud r w1.
Proof.
  intros H. rewrite validateEgress_unfold. apply (bind_Returns _ _ _ _ _ H).
Qed.

(** X4. When [Instances.Insert] is refused, the run makes two calls, the
    [Insert] and a [Stop] of the requested name, and returns [c.output]
    with the error of the stop (if any) and then the create error added to
    its errors; it looks up nothing, labels nothing and reads no console. *)
Theorem run_when_insert_is_refused
    rt cloud c subnet image kms timeout p w e :
  insertErr cloud = Some e ->
  let input := inputOf rt c subnet image timeout p in
  let out :=
    mkOutput (failures (output w)) (exceptions (output w))
      (errors (output w) ++ option_list (stopErr cloud)
       ++ [ErrUnableToCreateInstance e]) in
  validateEgress rt cloud c subnet image kms timeout p w
  = Returns out
      (mkWorld out
         (calls w ++ [Insert (requestOf c input); Stop (instanceNameOf rt)])).
Proof.
  intros Hi input out.
  rewrite (run_after_create _ _ _ _ _ _ _ _ _ _ _
             (create_insert_refused cloud c input w e Hi)).
  unfold afterCreate. cbn [fst snd].
  rewrite (bind_Returns _ _ _ _ _ (terminate_run cloud _ _)).
  rewrite returnAddError_run. unfold out, called. cbn [output calls].
  rewrite <- app_assoc. cbn [app].
  change (instanceName input) with (instanceNameOf rt).
  destruct (stopErr cloud); cbn; rewrite <- ?app_assoc; reflexivity.
Qed.

Lemma run_when_insert_is_refused_witness :
  insertErr Scenario.insertRefused = Some (ApiError 400 "invalid subnetwork")
  /\ Scenario.run Scenario.insertRefused
     = Returns
         (mkOutput [] []
            [ErrUnableToCreateInstance (ApiError 400 "invalid subnetwork")])
         (mkWorld
            (mkOutput [] []
               [ErrUnableToCreateInstance (ApiError 400 "invalid subnetwork")])
            [Insert
               (requestOf Scenario.client
                  (inputOf Scenario.rt Scenario.client "subnet-1" ""
                     Scenario.timeout Scenario.proxy));
             Stop "verifier-42"]).
Proof.
  split; [reflexivity|].
  exact (run_when_insert_is_refused Scenario.rt Scenario.insertRefused
           Scenario.client "subnet-1" "" "" Scenario.timeout Scenario.proxy
           (startWorld Scenario.emptyOutput)
           (ApiError 400 "invalid subnetwork") eq_refl).
Defined.

(** X5. When the instance is created and its fingerprint read but
    [SetLabels] is refused, the run stops the instance it created: its calls
    are [Insert], [Get], [SetLabels] (with the fingerprint read and the
    client's tags) and [Stop], and the errors gain the error of the stop (if
    any) and then the labels error. *)
Theorem run_when_labels_are_refused
    rt cloud c subnet image kms timeout p w inst e :
  insertErr cloud = None ->
  getResp cloud (gets w) = inr inst ->
  setLabelsErr cloud = Some e ->
  let input := inputOf rt c subnet image timeout p in
  let name := instanceNameOf rt in
  let out :=
    mkOutput (failures (output w)) (exceptions (output w))
      (errors (output w) ++ option_list (stopErr cloud)
       ++ [ErrUnableToCreateLabels e]) in
  validateEgress rt cloud c subnet image kms timeout p w
  = Returns out
      (mkWorld out
         (calls w
          ++ [Insert (requestOf c input); Get name;
              SetLabels name (LabelFingerprint inst) (tags c); Stop name])).
Proof.
  intros Hi Hg Hl input name out.
  rewrite (run_after_create _ _ _ _ _ _ _ _ _ _ _
             (create_labels_refused cloud c input w inst e Hi Hg Hl)).
  unfold afterCreate. cbn [fst snd].
  rewrite (bind_Returns _ _ _ _ _ (terminate_run cloud _ _)).
  rewrite returnAddError_run. unfold out, called. cbn [output calls].
  rewrite <- !app_assoc. cbn [app].
  change (instanceName input) with name.
  destruct (stopErr cloud); cbn; rewrite <- ?app_assoc; reflexivity.
Qed.

Lemma run_when_labels_are_refused_witness :
  insertErr Tour.labelsRefused = None
  /\ getResp Tour.labelsRefused (gets (startWorld Scenario.emptyOutput))
     = inr (mkInstance "RUNNING" "fp")
  /\ setLabelsErr Tour.labelsRefused = Some (ApiError 400 "invalid label")
  /\ Scenario.run Tour.labelsRefused
     = Returns
         (mkOutput [] []
            [ApiError 403 "stop not allowed";
             ErrUnableToCreateLabels (ApiError 400 "invalid label")])
         (mkWorld
            (mkOutput [] []
               [ApiError 403 "stop not allowed";
                ErrUnableToCreateLabels (ApiError 400 "invalid label")])
            [Insert
               (requestOf Scenario.client
                  (inputOf Scenario.rt Scenario.client "subnet-1" ""
                     Scenario.timeout Scenario.proxy));
             Get "verifier-42"; SetLabels "verifier-42" "fp" ∅;
             Stop "verifier-42"]).
Proof.
  split; [reflexivity|]. split; [reflexivity|]. split; [reflexivity|].
  exact (run_when_labels_are_refused Scenario.rt Tour.labelsRefused
           Scenario.client "subnet-1" "" "" Scenario.timeout Scenario.proxy
           (startWorld Scenario.emptyOutput) (mkInstance "RUNNING" "fp")
           (ApiError 400 "invalid label") eq_refl eq_refl eq_refl).
Defined.

(** *** Steps that leave the result alone *)

Lemma keepsOutput_ret {A : Type} (a : A) : keepsOutput (mret a).
Proof. intros w. reflexivity. Qed.

Lemma keepsOutput_bind {A B : Type} (m : M A) (f : A -> M B) :
  keepsOutput m -> (forall a, keepsOutput (f a)) -> keepsOutput (m ≫= f).
Proof.
  intros Hm Hf w. specialize (Hm w). unfold mbind, M_bind.
  destruct (m w) as [a w1|w1]; cbn [finalWorld] in *; [|exact Hm].
  now rewrite Hf.
Qed.

Lemma keepsOutput_record call : keepsOutput (record call).
Proof. intros w. reflexivity. Qed.

Lemma keepsOutput_Get cloud name : keepsOutput (Instances_Get cloud name).
Proof. intros w. reflexivity. Qed.

Lemma keepsOutput_pollLoop ticks interval condition :
  keepsOutput condition -> keepsOutput (pollLoop ticks interval condition).
Proof.
  intros Hc. induction ticks as [|n IH]; cbn [pollLoop].
  - apply keepsOutput_ret.
  - apply keepsOutput_bind; [exact Hc|].
    intros [[|] [e|]]; try apply keepsOutput_ret.
    apply keepsOutput_bind; [apply keepsOutput_record|]. intros _. exact IH.
Qed.

Lemma keepsOutput_instanceCondition cloud name :
  keepsOutput (instanceCondition cloud name).
Proof.
  unfold instanceCondition, describeComputeServiceInstances.
  apply keepsOutput_bind.
  - apply keepsOutput_bind; [apply keepsOutput_Get|].
    intros [e|i]; [apply keepsOutput_ret|].
    destruct (inList _ _); apply keepsOutput_ret.
  - intros [code descError]; cbn [fst snd].
    repeat (match goal with |- context [String.eqb ?a ?b] =>
              destruct (String.eqb a b) end; [apply keepsOutput_ret|]).
    destruct descError; apply keepsOutput_ret.
Qed.

Lemma keepsOutput_wait cloud name :
  keepsOutput (waitForComputeServiceInstanceCompletion cloud name).
Proof. apply keepsOutput_pollLoop, keepsOutput_instanceCondition. Qed.

Lemma run_after_wait rt cloud c subnet image kms timeout p w inst r w2 :
  insertErr cloud = None ->
  getResp cloud (gets w) = inr inst ->
  setLabelsErr cloud = None ->
  waitForComputeServiceInstanceCompletion cloud (instanceNameOf rt)
    (created c (inputOf rt c subnet image timeout p) inst w)
  = Returns r w2 ->
  output w2 = output w
  /\ validateEgress rt cloud c subnet image kms timeout p w
     = match r with
       | Some e =>
           (terminateComputeServiceInstance cloud (instanceNameOf rt);;
            returnAddError (Some e)) w2
       | None =>
           (err ← findUnreachableEndpoints cloud (instanceNameOf rt);
            match err with
            | Some e => updateOutput (Output_AddError (Some e))
            | None => mret tt
            end;;
            terminateComputeServiceInstance cloud (instanceNameOf rt);;
            readOutput) w2
       end.
Proof.
  intros Hi Hg Hl Hw. split.
  - pose proof (keepsOutput_wait cloud (instanceNameOf rt)
                  (created c (inputOf rt c subnet image timeout p) inst w))
      as Hk.
    now rewrite Hw in Hk.
  - rewrite (run_after_create _ _ _ _ _ _ _ _ _ _ _
               (create_succeeds cloud c _ w inst Hi Hg Hl)).
    unfold afterCreate. cbn [fst snd].
    change (instanceName (inputOf rt c subnet image timeout p))
      with (instanceNameOf rt).
    fold (created c (inputOf rt c subnet image timeout p) inst w).
    rewrite (bind_Returns _ _ _ _ _ Hw). now destruct r.
Qed.

(** X6. When the readiness wait fails, with whatever error, the run reads
    no console output: its next and last call is the [Stop] of the
    instance, and the errors gain the error of the stop (if any) and then
    the error of the wait; nothing else of the result changes. *)
Theorem run_when_wait_fails
    rt cloud c subnet image kms timeout p w inst e w2 :
  insertErr cloud = None ->
  getResp cloud (gets w) = inr inst ->
  setLabelsErr cloud = None ->
  waitForComputeServiceInstanceCompletion cloud (instanceNameOf rt)
    (created c (inputOf rt c subnet image timeout p) inst w)
  = Returns (Some e) w2 ->
  let out :=
    mkOutput (failures (output w)) (exceptions (output w))
      (errors (output w) ++ option_list (stopErr cloud) ++ [e]) in
  validateEgress rt cloud c subnet image kms timeout p w
  = Returns out (mkWorld out (calls w2 ++ [Stop (instanceNameOf rt)])).
Proof.
  intros Hi Hg Hl Hw out.
  destruct (run_after_wait rt cloud c subnet image kms timeout p w inst
              (Some e) w2 Hi Hg Hl Hw) as [Ho ->].
  rewrite (bind_Returns _ _ _ _ _ (terminate_run cloud _ _)).
  rewrite returnAddError_run. cbn [output calls]. rewrite Ho. unfold out.
  destruct (stopErr cloud); cbn; rewrite <- ?app_assoc; reflexivity.
Qed.

Lemma run_when_wait_fails_witness :
  insertErr Scenario.foundStopped = None
  /\ getResp Scenario.foundStopped (gets (startWorld Scenario.emptyOutput))
     = inr (mkInstance "STAGING" "fp")
  /\ setLabelsErr Scenario.foundStopped = None
  /\ Scenario.run Scenario.foundStopped
     = Returns
         (mkOutput [] []
            [ErrAlreadyExists "verifier-42" (Some (ErrStatus "STOPPED"))])
         (mkWorld
            (mkOutput [] []
               [ErrAlreadyExists "verifier-42" (Some (ErrStatus "STOPPED"))])
            [Insert
               (requestOf Scenario.client
                  (inputOf Scenario.rt Scenario.client "subnet-1" ""
                     Scenario.timeout Scenario.proxy));
             Get "verifier-42"; SetLabels "verifier-42" "fp" ∅;
             Get "verifier-42"; Stop "verifier-42"]).
Proof.
  split; [reflexivity|]. split; [reflexivity|]. split; [reflexivity|].
  exact (run_when_wait_fails Scenario.rt Scenario.foundStopped
           Scenario.client "subnet-1" "" "" Scenario.timeout Scenario.proxy
           (startWorld Scenario.emptyOutput) (mkInstance "STAGING" "fp")
           (ErrAlreadyExists "verifier-42" (Some (ErrStatus "STOPPED")))
           (mkWorld Scenario.emptyOutput
              [Insert
                 (requestOf Scenario.client
                    (inputOf Scenario.rt Scenario.client "subnet-1" ""
                       Scenario.timeout Scenario.proxy));
               Get "verifier-42"; SetLabels "verifier-42" "fp" ∅;
               Get "verifier-42"])
           eq_refl eq_refl eq_refl eq_refl).
Defined.

(** X7. Once the instance is ready, whatever the analysis returns, the run
    records the error of the analysis (if any), then stops the instance,
    then records the error of the stop (if any), and returns [c.output];
    the [Stop] is its last call. *)
Theorem run_after_the_analysis
    rt cloud c subnet image kms timeout p w inst w2 err w3 :
  insertErr cloud = None ->
  getResp cloud (gets w) = inr inst ->
  setLabelsErr cloud = None ->
  waitForComputeServiceInstanceCompletion cloud (instanceNameOf rt)
    (created c (inputOf rt c subnet image timeout p) inst w)
  = Returns None w2 ->
  findUnreachableEndpoints cloud (instanceNameOf rt) w2 = Returns err w3 ->
  let out :=
    Output_AddError (stopErr cloud) (Output_AddError err (output w3)) in
  validateEgress rt cloud c subnet image kms timeout p w
  = Returns out (mkWorld out (calls w3 ++ [Stop (instanceNameOf rt)])).
Proof.
  intros Hi Hg Hl Hw Ha out.
  destruct (run_after_wait rt cloud c subnet image kms timeout p w inst
              None w2 Hi Hg Hl Hw) as [_ ->].
  rewrite (bind_Returns _ _ _ _ _ Ha).
  destruct err as [e|]; reflexivity.
Qed.

Lemma run_after_the_analysis_witness :
  insertErr Tour.consoleFetchFails = None
  /\ getResp Tour.consoleFetchFails (gets (startWorld Scenario.emptyOutput))
     = inr (mkInstance "RUNNING" "fp")
  /\ setLabelsErr Tour.consoleFetchFails = None
  /\ waitForComputeServiceInstanceCompletion Tour.consoleFetchFails
       "verifier-42" Tour.afterCreation
     = Returns None (called (Get "verifier-42") Tour.afterCreation)
  /\ findUnreachableEndpoints Tour.consoleFetchFails "verifier-42"
       (called (Get "verifier-42") Tour.afterCreation)
     = Returns (Some (ApiError 503 "try again"))
         (mkWorld Scenario.emptyOutput
            (calls (called (Get "verifier-42") Tour.afterCreation)
             ++ [GetSerialPortOutput "verifier-42"; Sleep (30 * Second);
                 GetSerialPortOutput "verifier-42"]))
  /\ Scenario.run Tour.consoleFetchFails
     = Returns (mkOutput [] [] [ApiError 503 "try again"])
         (mkWorld (mkOutput [] [] [ApiError 503 "try again"])
            (calls (called (Get "verifier-42") Tour.afterCreation)
             ++ [GetSerialPortOutput "verifier-42"; Sleep (30 * Second);
                 GetSerialPortOutput "verifier-42"]
             ++ [Stop "verifier-42"])).
Proof.
  split; [reflexivity|]. split; [reflexivity|]. split; [reflexivity|].
  split; [reflexivity|]. split; [reflexivity|].
  exact (run_after_the_analysis Scenario.rt Tour.consoleFetchFails
           Scenario.client "subnet-1" "" "" Scenario.timeout Scenario.proxy
           (startWorld Scenario.emptyOutput) (mkInstance "RUNNING" "fp")
           (called (Get "verifier-42") Tour.afterCreation)
           (Some (ApiError 503 "try again"))
           (mkWorld Scenario.emptyOutput
              (calls (called (Get "verifier-42") Tour.afterCreation)
               ++ [GetSerialPortOutput "verifier-42"; Sleep (30 * Second);
                   GetSerialPortOutput "verifier-42"]))
           eq_refl eq_refl eq_refl eq_refl eq_refl).
Defined.

(** ** The analysis that does not complete *)

(** X8. When the fetch of the console fails, the analysis ends on that call
    with the error of the fetch as it is: the error is not retried, though
    a later fetch might succeed, and nothing is recorded on the result. *)
Theorem analysis_ends_on_fetch_error cloud name w k e :
  (k < 8)%nat ->
  (forall i, (i < k)%nat ->
     notYetComplete (serialResp cloud (reads w + i)) = true) ->
  serialResp cloud (reads w + k) = inl e ->
  findUnreachableEndpoints cloud name w
  = Returns (Some e)
      (mkWorld (output w)
         (calls w
          ++ tickThenSleep (GetSerialPortOutput name) (30 * Second) k
          ++ [GetSerialPortOutput name])).
Proof.
  intros Hlt Hk He.
  unfold findUnreachableEndpoints, PollImmediate. rewrite console_ticks.
  replace 8%nat with (k + S (7 - k))%nat by lia.
  rewrite (analysis_goes_on cloud name k _ w Hk).
  set (wk := polled (GetSerialPortOutput name) (30 * Second) k w).
  assert (consoleCondition cloud name wk
          = Returns (false, Some e) (called (GetSerialPortOutput name) wk))
    as Hc.
  { unfold consoleCondition, Instances_GetSerialPortOutput, mbind, M_bind.
    fold (reads wk). unfold wk. rewrite reads_polled, He. reflexivity. }
  rewrite (pollLoop_last_tick _ _ _ _ _ _ Hc) by discriminate.
  unfold wk, polled, called. cbn [output calls]. now rewrite <- app_assoc.
Qed.

Lemma analysis_ends_on_fetch_error_witness :
  (1 < 8)%nat
  /\ (forall i, (i < 1)%nat ->
        notYetComplete
          (serialResp Tour.consoleFetchFails
             (reads (startWorld Scenario.emptyOutput) + i)) = true)
  /\ serialResp Tour.consoleFetchFails
       (reads (startWorld Scenario.emptyOutput) + 1)
     = inl (ApiError 503 "try again")
  /\ findUnreachableEndpoints Tour.consoleFetchFails "verifier-42"
       (startWorld Scenario.emptyOutput)
     = Returns (Some (ApiError 503 "try again"))
         (mkWorld Scenario.emptyOutput
            [GetSerialPortOutput "verifier-42"; Sleep (30 * Second);
             GetSerialPortOutput "verifier-42"]).
Proof.
  assert (forall i, (i < 1)%nat ->
            notYetComplete
              (serialResp Tour.consoleFetchFails
                 (reads (startWorld Scenario.emptyOutput) + i)) = true) as H.
  { intros [|i] Hi; [reflexivity|lia]. }
  split; [lia|]. split; [exact H|]. split; [reflexivity|].
  exact (analysis_ends_on_fetch_error Tour.consoleFetchFails "verifier-42"
           (startWorld Scenario.emptyOutput) 1 (ApiError 503 "try again")
           ltac:(lia) H eq_refl).
Defined.

Lemma analysis_times_out cloud name w :
  (forall i, (i < 8)%nat ->
     notYetComplete (serialResp cloud (reads w + i)) = true) ->
  findUnreachableEndpoints cloud name w
  = Returns (Some ErrPollTimeout)
      (polled (GetSerialPortOutput name) (30 * Second) 8 w).
Proof.
  intros H. unfold findUnreachableEndpoints, PollImmediate.
  rewrite console_ticks. change 8%nat with (8 + 0)%nat at 1.
  now rewrite (analysis_goes_on cloud name 8 0 w H).
Qed.

(** X9. A run whose instance gets ready but whose console never shows the
    completion marker gives up after 8 fetches, 30 seconds apart (4
    minutes): it records the timeout error and nothing else, neither an
    unreachable endpoint nor a connectivity failure, whatever the console
    showed; then it stops the instance, once, and records the error of the
    stop (if any). *)
Theorem run_when_probe_never_completes
    rt cloud c subnet image kms timeout p w inst w2 :
  insertErr cloud = None ->
  getResp cloud (gets w) = inr inst ->
  setLabelsErr cloud = None ->
  waitForComputeServiceInstanceCompletion cloud (instanceNameOf rt)
    (created c (inputOf rt c subnet image timeout p) inst w)
  = Returns None w2 ->
  (forall i, (i < 8)%nat ->
     notYetComplete (serialResp cloud (reads w2 + i)) = true) ->
  let name := instanceNameOf rt in
  let out :=
    mkOutput (failures (output w)) (exceptions (output w))
      (errors (output w) ++ [ErrPollTimeout] ++ option_list (stopErr cloud)) in
  validateEgress rt cloud c subnet image kms timeout p w
  = Returns out
      (mkWorld out
         (calls w2
          ++ tickThenSleep (GetSerialPortOutput name) (30 * Second) 8
          ++ [Stop name])).
Proof.
  intros Hi Hg Hl Hw Hk name out.
  destruct (run_after_wait rt cloud c subnet image kms timeout p w inst
              None w2 Hi Hg Hl Hw) as [Ho ->].
  rewrite (bind_Returns _ _ _ _ _ (analysis_times_out cloud name w2 Hk)).
  unfold polled, out.
  unfold updateOutput, terminateComputeServiceInstance, Instances_Stop,
    record, readOutput, mbind, M_bind, mret, M_ret.
  cbn [output calls]. rewrite Ho, <- app_assoc.
  destruct (stopErr cloud); cbn; rewrite <- ?app_assoc; reflexivity.
Qed.

Lemma run_when_probe_never_completes_witness :
  insertErr Tour.neverCompletes = None
  /\ getResp Tour.neverCompletes (gets (startWorld Scenario.emptyOutput))
     = inr (mkInstance "RUNNING" "fp")
  /\ setLabelsErr Tour.neverCompletes = None
  /\ waitForComputeServiceInstanceCompletion Tour.neverCompletes
       "verifier-42" Tour.afterCreation
     = Returns None (called (Get "verifier-42") Tour.afterCreation)
  /\ (forall i, (i < 8)%nat ->
        notYetComplete
          (serialResp Tour.neverCompletes
             (reads (called (Get "verifier-42") Tour.afterCreation) + i))
        = true)
  /\ Scenario.run Tour.neverCompletes
     = Returns (mkOutput [] [] [ErrPollTimeout])
         (mkWorld (mkOutput [] [] [ErrPollTimeout])
            (calls (called (Get "verifier-42") Tour.afterCreation)
             ++ tickThenSleep (GetSerialPortOutput "verifier-42")
                  (30 * Second) 8
             ++ [Stop "verifier-42"])).
Proof.
  split; [reflexivity|]. split; [reflexivity|]. split; [reflexivity|].
  split; [reflexivity|]. split; [intros i _; reflexivity|].
  exact (run_when_probe_never_completes Scenario.rt Tour.neverCompletes
           Scenario.client "subnet-1" "" "" Scenario.timeout Scenario.proxy
           (startWorld Scenario.emptyOutput) (mkInstance "RUNNING" "fp")
           (called (Get "verifier-42") Tour.afterCreation)
           eq_refl eq_refl eq_refl eq_refl (fun i _ => eq_refl)).
Defined.

(** ** What every run does and does not do *)

Lemma grows_refl o : grows o o.
Proof. repeat split; exists []; now rewrite app_nil_r. Qed.

Lemma grows_trans o1 o2 o3 : grows o1 o2 -> grows o2 o3 -> grows o1 o3.
Proof.
  intros ([f1 H1] & [x1 H2] & [e1 H3]) ([f2 H4] & [x2 H5] & [e2 H6]).
  repeat split.
  - exists (f1 ++ f2). now rewrite H4, H1, app_assoc.
  - exists (x1 ++ x2). now rewrite H5, H2, app_assoc.
  - exists (e1 ++ e2). now rewrite H6, H3, app_assoc.
Qed.

Lemma grows_AddError err o : grows o (Output_AddError err o).
Proof.
  destruct err as [e|]; [|apply grows_refl].
  repeat split; cbn; [exists []|exists []|exists [e]];
    now rewrite ?app_nil_r.
Qed.

Lemma grows_AddException e o : grows o (Output_AddException e o).
Proof.
  repeat split; cbn; [exists []|exists [e]|exists []];
    now rewrite ?app_nil_r.
Qed.

Lemma grows_SetEgressFailures fs o : grows o (Output_SetEgressFailures fs o).
Proof.
  repeat split; cbn; [exists fs|exists []|exists []];
    now rewrite ?app_nil_r.
Qed.

Lemma total_app ws l1 l2 : total ws (l1 ++ l2) = total ws l1 + total ws l2.
Proof.
  unfold total. induction l1 as [|c l1 IH]; cbn; [lia|].
  fold (total ws) in *. cbn in IH. lia.
Qed.

Section Behaviour.

Variable name : string.
Variable ws : Weights.
Hypothesis ws_nonneg : nonnegative ws.

Lemma weigh_nonneg call : 0 <= weigh ws call.
Proof.
  destruct ws_nonneg as (? & ? & ? & ? & ? & ? & ?).
  destruct call; cbn; try assumption.
  destruct (d =? 5 * Second)%Z; [assumption|].
  destruct (d =? 30 * Second)%Z; [assumption|lia].
Qed.

Lemma behaves_ret {A : Type} (a : A) : behaves name ws (mret a) 0.
Proof.
  split; [lia|]. intros w. cbn. split; [apply grows_refl|].
  exists []. rewrite app_nil_r. repeat split. cbn. lia.
Qed.

Lemma behaves_weaken {A : Type} (m : M A) k k' :
  behaves name ws m k -> k <= k' -> behaves name ws m k'.
Proof.
  intros [H0 H] Hle. split; [lia|]. intros w.
  destruct (H w) as (Hg & l & Hl & Hok & Ht).
  split; [exact Hg|]. exists l. repeat split; try assumption. lia.
Qed.

(** Sequencing, when what [m] returns is known to satisfy [Q]. *)
Lemma behaves_bind_post {A B : Type} (Q : A -> Prop) (m : M A) (f : A -> M B)
    k1 k2 :
  behaves name ws m k1 ->
  (forall w a w1, m w = Returns a w1 -> Q a) ->
  (forall a, Q a -> behaves name ws (f a) k2) ->
  0 <= k2 ->
  behaves name ws (m ≫= f) (k1 + k2).
Proof.
  intros [H1 Hm] HQ Hf H2. split; [lia|]. intros w.
  destruct (Hm w) as (Hg & l & Hl & Hok & Ht).
  unfold mbind, M_bind. destruct (m w) as [a w1|w1] eqn:E;
    cbn [finalWorld] in *.
  - destruct (Hf a (HQ w a w1 E)) as [_ Hfa].
    destruct (Hfa w1) as (Hg' & l' & Hl' & Hok' & Ht').
    split; [exact (grows_trans _ _ _ Hg Hg')|].
    exists (l ++ l'). rewrite Hl', Hl, app_assoc, forallb_app, total_app.
    rewrite Hok, Hok'. repeat split. lia.
  - split; [exact Hg|]. exists l. repeat split; try assumption. lia.
Qed.

Lemma behaves_bind {A B : Type} (m : M A) (f : A -> M B) k1 k2 :
  behaves name ws m k1 ->
  (forall a, behaves name ws (f a) k2) ->
  0 <= k2 ->
  behaves name ws (m ≫= f) (k1 + k2).
Proof.
  intros Hm Hf H2.
  apply (behaves_bind_post (fun _ => True)); auto.
Qed.

Lemma behaves_record call :
  runCall name call = true -> behaves name ws (record call) (weigh ws call).
Proof.
  intros Hc. split; [apply weigh_nonneg|]. intros w. cbn.
  split; [apply grows_refl|]. exists [call]. cbn. rewrite Hc.
  repeat split. lia.
Qed.

Lemma behaves_Get cloud :
  String.eqb name name = true ->
  behaves name ws (Instances_Get cloud name) (ofGet ws).
Proof.
  intros Hc. split; [apply (weigh_nonneg (Get name))|]. intros w. cbn.
  split; [apply grows_refl|]. exists [Get name]. cbn. rewrite Hc.
  repeat split. lia.
Qed.

Lemma behaves_GetSerialPortOutput cloud :
  String.eqb name name = true ->
  behaves name ws (Instances_GetSerialPortOutput cloud name) (ofRead ws).
Proof.
  intros Hc. split; [apply (weigh_nonneg (GetSerialPortOutput name))|].
  intros w. cbn.
  split; [apply grows_refl|]. exists [GetSerialPortOutput name]. cbn.
  rewrite Hc. repeat split. lia.
Qed.

Lemma behaves_updateOutput f :
  (forall o, grows o (f o)) -> behaves name ws (updateOutput f) 0.
Proof.
  intros Hf. split; [lia|]. intros w. cbn. split; [apply Hf|].
  exists []. rewrite app_nil_r. repeat split. cbn. lia.
Qed.

Lemma behaves_readOutput : behaves name ws readOutput 0.
Proof.
  split; [lia|]. intros w. cbn. split; [apply grows_refl|].
  exists []. rewrite app_nil_r. repeat split. cbn. lia.
Qed.

Lemma behaves_deref {A : Type} (p : option A) : behaves name ws (deref p) 0.
Proof.
  destruct p; [apply behaves_ret|].
  split; [lia|]. intros w. cbn. split; [apply grows_refl|].
  exists []. rewrite app_nil_r. repeat split. cbn. lia.
Qed.

Lemma behaves_returnAddError err : behaves name ws (returnAddError err) 0.
Proof.
  unfold returnAddError. change 0 with (0 + 0).
  apply behaves_bind; [|intros _; apply behaves_readOutput|lia].
  apply behaves_updateOutput, grows_AddError.
Qed.

Lemma behaves_pollLoop ticks interval condition k :
  runCall name (Sleep interval) = true ->
  behaves name ws condition k ->
  behaves name ws (pollLoop ticks interval condition)
    (Z.of_nat ticks * (k + weigh ws (Sleep interval))).
Proof.
  intros Hs Hc. pose proof (weigh_nonneg (Sleep interval)) as Hn.
  destruct Hc as [Hk Hc']. assert (behaves name ws condition k) as Hc
    by (split; assumption).
  induction ticks as [|n IH]; cbn [pollLoop].
  - apply behaves_ret.
  - replace (Z.of_nat (S n) * (k + weigh ws (Sleep interval)))
      with (k + (weigh ws (Sleep interval)
                 + Z.of_nat n * (k + weigh ws (Sleep interval)))) by lia.
    assert (0 <= Z.of_nat n * (k + weigh ws (Sleep interval))) as Hn' by nia.
    apply behaves_bind; [exact Hc| |lia].
    intros [[|] [e|]];
      try (apply (behaves_weaken _ 0); [apply behaves_ret|lia]).
    apply behaves_bind; [now apply behaves_record|intros _; exact IH|lia].
Qed.

Hypothesis name_refl : String.eqb name name = true.

Lemma behaves_instanceCondition cloud :
  behaves name ws (instanceCondition cloud name) (ofGet ws).
Proof.
  destruct ws_nonneg as (? & ? & _).
  unfold instanceCondition, describeComputeServiceInstances.
  replace (ofGet ws) with ((ofGet ws + 0) + 0) by lia.
  apply behaves_bind; [|
    intros [code descError]; cbn [fst snd];
    repeat (match goal with |- context [String.eqb ?a ?b] =>
              destruct (String.eqb a b) end; [apply behaves_ret|]);
    destruct descError; apply behaves_ret | lia].
  apply behaves_bind; [|
    intros [e|i]; [apply behaves_ret|];
    destruct (inList _ _); apply behaves_ret | lia].
  apply behaves_Get. exact name_refl.
Qed.

Lemma behaves_consoleCondition cloud :
  behaves name ws (consoleCondition cloud name) (ofRead ws).
Proof.
  destruct ws_nonneg as (? & ? & ? & ? & _).
  unfold consoleCondition.
  replace (ofRead ws) with (ofRead ws + 0) by lia.
  apply behaves_bind; [apply behaves_GetSerialPortOutput; exact name_refl
                      | |lia].
  intros [e|[out|]]; try apply behaves_ret.
  destruct (_ <? 1)%nat; [apply behaves_ret|].
  destruct (_ <? 1)%nat; [apply behaves_ret|].
  change 0 with (0 + (0 + 0)).
  apply behaves_bind; [| |lia].
  - destruct (0 <? _)%nat; [|apply behaves_ret].
    apply behaves_updateOutput, grows_AddException.
  - intros _. apply behaves_bind; [|intros _; apply behaves_ret|lia].
    apply behaves_updateOutput, grows_SetEgressFailures.
Qed.

Lemma behaves_terminate cloud :
  behaves name ws (terminateComputeServiceInstance cloud name) (ofStop ws).
Proof.
  destruct ws_nonneg as (? & ? & ? & ? & ? & _).
  unfold terminateComputeServiceInstance, Instances_Stop.
  replace (ofStop ws) with ((ofStop ws + 0) + 0) by lia.
  apply behaves_bind; [| |lia].
  - apply behaves_bind; [|intros _; apply behaves_ret|lia].
    apply (behaves_record (Stop name)). exact name_refl.
  - intros err. apply behaves_updateOutput, grows_AddError.
Qed.

Lemma behaves_wait cloud :
  behaves name ws (waitForComputeServiceInstanceCompletion cloud name)
    (24 * (ofGet ws + ofSleep5 ws)).
Proof.
  unfold waitForComputeServiceInstanceCompletion, PollImmediate.
  rewrite readiness_ticks.
  apply (behaves_pollLoop 24 (5 * Second) _ (ofGet ws)); [reflexivity|].
  apply behaves_instanceCondition.
Qed.

Lemma behaves_analysis cloud :
  behaves name ws (findUnreachableEndpoints cloud name)
    (8 * (ofRead ws + ofSleep30 ws)).
Proof.
  unfold findUnreachableEndpoints, PollImmediate. rewrite console_ticks.
  apply (behaves_pollLoop 8 (30 * Second) _ (ofRead ws)); [reflexivity|].
  apply behaves_consoleCondition.
Qed.

Lemma behaves_afterCreate cloud r :
  instanceName (fst r) = name ->
  behaves name ws (afterCreate cloud r)
    (24 * (ofGet ws + ofSleep5 ws) + 8 * (ofRead ws + ofSleep30 ws)
     + ofStop ws).
Proof.
  intros Hn. destruct ws_nonneg as (? & ? & ? & ? & ? & ? & ?).
  unfold afterCreate. rewrite Hn. destruct (snd r) as [e|].
  - apply (behaves_weaken _ (ofStop ws + 0)); [|lia].
    apply behaves_bind; [apply behaves_terminate| |lia].
    intros _. apply behaves_returnAddError.
  - replace (24 * (ofGet ws + ofSleep5 ws) + 8 * (ofRead ws + ofSleep30 ws)
             + ofStop ws)
      with (24 * (ofGet ws + ofSleep5 ws)
            + (8 * (ofRead ws + ofSleep30 ws) + ofStop ws)) by lia.
    apply behaves_bind; [apply behaves_wait| |lia].
    intros [e|].
    + apply (behaves_weaken _ (ofStop ws + 0)); [|lia].
      apply behaves_bind; [apply behaves_terminate| |lia].
      intros _. apply behaves_returnAddError.
    + apply behaves_bind; [apply behaves_analysis| |lia].
      intros err. replace (ofStop ws) with (0 + (ofStop ws + 0)) by lia.
      apply behaves_bind; [| |lia].
      * destruct err; [|apply behaves_ret].
        apply behaves_updateOutput, grows_AddError.
      * intros _. apply behaves_bind; [apply behaves_terminate| |lia].
        intros _. apply behaves_readOutput.
Qed.

Lemma behaves_create cloud c input :
  instanceName input = name ->
  behaves name ws (createComputeServiceInstance cloud c input)
    (ofInsert ws + ofGet ws + ofSetLabels ws).
Proof.
  intros Hn. destruct ws_nonneg as (? & ? & ? & _).
  unfold createComputeServiceInstance, Instances_Insert, Instances_SetLabels.
  rewrite Hn.
  replace (ofInsert ws + ofGet ws + ofSetLabels ws)
    with ((ofInsert ws + 0) + (ofGet ws + (0 + ((ofSetLabels ws + 0) + 0))))
    by lia.
  apply behaves_bind; [| |lia].
  - apply behaves_bind; [|intros _; apply behaves_ret|lia].
    apply (behaves_record (Insert _)). cbn. exact name_refl.
  - intros [e|].
    { apply (behaves_weaken _ 0); [apply behaves_ret|lia]. }
    apply behaves_bind; [apply behaves_Get; exact name_refl| |lia].
    intros got. apply behaves_bind; [apply behaves_deref| |lia].
    intros i. apply behaves_bind; [| |lia].
    + apply behaves_bind; [|intros _; apply behaves_ret|lia].
      apply (behaves_record (SetLabels name _ _)). exact name_refl.
    + intros [e|]; apply behaves_ret.
Qed.

End Behaviour.

Lemma create_returns_input cloud c input w r w1 :
  createComputeServiceInstance cloud c input w = Returns r w1 ->
  fst r = input.
Proof.
  unfold createComputeServiceInstance, Instances_Insert, Instances_SetLabels,
    Instances_Get, record, mbind, M_bind, mret, M_ret.
  destruct (insertErr cloud); [now intros [= <- _]|].
  cbn [output calls].
  destruct (getResp cloud _); cbn [deref]; [discriminate|].
  unfold mret, M_ret.
  destruct (setLabelsErr cloud); now intros [= <- _].
Qed.

Lemma behaves_validateEgress rt cloud c subnet image kms timeout p ws :
  nonnegative ws ->
  behaves (instanceNameOf rt) ws
    (validateEgress rt cloud c subnet image kms timeout p) (runBudget ws).
Proof.
  intros Hws. destruct Hws as (? & ? & ? & ? & ? & ? & ?).
  assert (nonnegative ws) as Hws by (repeat split; assumption).
  rewrite validateEgress_unfold. unfold runBudget.
  replace (ofInsert ws + ofGet ws + ofSetLabels ws
           + 24 * (ofGet ws + ofSleep5 ws) + 8 * (ofRead ws + ofSleep30 ws)
           + ofStop ws)
    with ((ofInsert ws + ofGet ws + ofSetLabels ws)
          + (24 * (ofGet ws + ofSleep5 ws) + 8 * (ofRead ws + ofSleep30 ws)
             + ofStop ws)) by lia.
  apply (behaves_bind_post (instanceNameOf rt) ws
           (fun r => fst r = inputOf rt c subnet image timeout p)).
  - apply behaves_create; [exact Hws|apply String.eqb_refl|reflexivity].
  - intros w r w1. apply create_returns_input.
  - intros r Hr. apply behaves_afterCreate;
      [exact Hws|apply String.eqb_refl|now rewrite Hr].
  - lia.
Qed.

Lemma returnsOutput_bind {A : Type} (m : M A) (f : A -> M Output) :
  (forall a, returnsOutput (f a)) -> returnsOutput (m ≫= f).
Proof.
  intros Hf w out w'. unfold mbind, M_bind.
  destruct (m w) as [a w1|w1]; [apply Hf|discriminate].
Qed.

Lemma returnsOutput_readOutput : returnsOutput readOutput.
Proof. intros w out w' [= <- <-]. reflexivity. Qed.

Lemma returnsOutput_returnAddError err : returnsOutput (returnAddError err).
Proof. intros w out w'. rewrite returnAddError_run. now intros [= <- <-]. Qed.

Lemma returnsOutput_afterCreate cloud r : returnsOutput (afterCreate cloud r).
Proof.
  unfold afterCreate. destruct (snd r).
  - apply returnsOutput_bind. intros _. apply returnsOutput_returnAddError.
  - apply returnsOutput_bind. intros [e|].
    + apply returnsOutput_bind. intros _. apply returnsOutput_returnAddError.
    + apply returnsOutput_bind. intros err.
      apply returnsOutput_bind. intros _.
      apply returnsOutput_bind. intros _. apply returnsOutput_readOutput.
Qed.

Lemma noWeights_nonneg : nonnegative noWeights.
Proof. repeat split; cbn; lia. Qed.

(** X10. A run only adds to [c.output]: however it ends, each of the three
    lists of the result still starts with what it held before, so the
    findings of an earlier run on the same client stay in the result; and
    what a run returns is [c.output] as it is at that moment. *)
Theorem run_only_adds_to_the_result
    rt cloud c subnet image kms timeout p w :
  grows (output w)
    (output (finalWorld (validateEgress rt cloud c subnet image kms timeout p w)))
  /\ forall out w',
       validateEgress rt cloud c subnet image kms timeout p w = Returns out w' ->
       out = output w'.
Proof.
  split.
  - destruct (behaves_validateEgress rt cloud c subnet image kms timeout p
                noWeights noWeights_nonneg) as [_ H].
    apply (H w).
  - rewrite validateEgress_unfold.
    apply (returnsOutput_bind _ _ (returnsOutput_afterCreate cloud)).
Qed.

Lemma create_first_call cloud c input w :
  exists l,
    calls (finalWorld (createComputeServiceInstance cloud c input w))
    = calls w ++ Insert (requestOf c input) :: l.
Proof.
  unfold createComputeServiceInstance, Instances_Insert, Instances_SetLabels,
    Instances_Get, record, mbind, M_bind, mret, M_ret.
  destruct (insertErr cloud); [now exists []|].
  cbn [output calls].
  destruct (getResp cloud _); cbn [deref].
  - eexists. unfold panic. cbn. rewrite <- app_assoc. reflexivity.
  - unfold mret, M_ret.
    destruct (setLabelsErr cloud); eexists; cbn;
      rewrite <- !app_assoc; reflexivity.
Qed.

(** X11. Every call of a run addresses one instance: the first call is the
    [Insert] of the request built from the arguments, which names the
    instance verifier-N, asks for the image family given (cos-97-lts when
    none is given) and for the subnet of the client's project and region;
    every later call, however the run ends, names that same instance or is
    a sleep of five or of thirty seconds. *)
Theorem run_addresses_one_instance
    rt cloud c subnet image kms timeout p w :
  let req := requestOf c (inputOf rt c subnet image timeout p) in
  reqName req = "verifier-" +:+ pretty (rand_Intn_10000 rt)
  /\ reqSourceImage req
     = "projects/cos-cloud/global/images/family/"
       +:+ (if String.eqb image EmptyString then "cos-97-lts" else image)
  /\ reqSubnetwork req
     = "projects/" +:+ projectID c +:+ "/regions/" +:+ region c
       +:+ "/subnetworks/" +:+ subnet
  /\ exists l,
       calls (finalWorld
                (validateEgress rt cloud c subnet image kms timeout p w))
       = calls w ++ Insert req :: l
       /\ forallb (runCall (reqName req)) l = true.
Proof.
  intros req. split; [reflexivity|]. split; [reflexivity|].
  split; [reflexivity|].
  destruct (behaves_validateEgress rt cloud c subnet image kms timeout p
              noWeights noWeights_nonneg) as [_ H].
  destruct (H w) as (_ & l0 & Hl0 & Hok & _).
  assert (exists l,
            calls (finalWorld
                     (validateEgress rt cloud c subnet image kms timeout p w))
            = calls w ++ Insert req :: l) as [l Hl].
  { rewrite validateEgress_unfold. unfold mbind, M_bind.
    destruct (create_first_call cloud c (inputOf rt c subnet image timeout p) w)
      as [l1 Hl1].
    destruct (createComputeServiceInstance cloud c _ w) as [r w1|w1] eqn:E;
      cbn [finalWorld] in Hl1 |- *.
    - destruct (behaves_afterCreate (instanceNameOf rt) noWeights
                  noWeights_nonneg (String.eqb_refl _) cloud r) as [_ Ha].
      { now rewrite (create_returns_input _ _ _ _ _ _ E). }
      destruct (Ha w1) as (_ & l2 & Hl2 & _).
      exists (l1 ++ l2). rewrite Hl2, Hl1, <- app_assoc. reflexivity.
    - now exists l1. }
  exists l. split; [exact Hl|].
  rewrite Hl in Hl0. apply app_inv_head in Hl0. subst l0.
  cbn [forallb] in Hok. now apply andb_true_iff in Hok as [_ Hok].
Qed.

Lemma countCalls_extended p w w' l :
  calls w' = calls w ++ l ->
  countCalls p w' = (countCalls p w + length (List.filter p l))%nat.
Proof.
  intros H. unfold countCalls. rewrite H, List.filter_app. apply length_app.
Qed.

Lemma sleptIn_app l1 l2 : sleptIn (l1 ++ l2) = sleptIn l1 + sleptIn l2.
Proof.
  induction l1 as [|c l1 IH]; [reflexivity|].
  change (sleptIn ((c :: l1) ++ l2))
    with (match c with Sleep d => d + sleptIn (l1 ++ l2)
                     | _ => sleptIn (l1 ++ l2) end).
  change (sleptIn (c :: l1))
    with (match c with Sleep d => d + sleptIn l1 | _ => sleptIn l1 end).
  rewrite IH. destruct c; lia.
Qed.

Lemma slept_extended w w' l :
  calls w' = calls w ++ l -> slept w' = slept w + sleptIn l.
Proof.
  intros H. change (slept w') with (sleptIn (calls w')).
  change (slept w) with (sleptIn (calls w)). rewrite H. apply sleptIn_app.
Qed.

Lemma total_counts (p : Call -> bool) ws l :
  (forall call, weigh ws call = if p call then 1 else 0) ->
  total ws l = Z.of_nat (length (List.filter p l)).
Proof.
  intros H. induction l as [|c l IH]; [reflexivity|].
  cbn [total fold_right List.filter]. fold (total ws l). rewrite IH, H.
  destruct (p c); cbn [length]; lia.
Qed.

Lemma total_slept name l :
  forallb (runCall name) l = true -> total sleepWeights l = sleptIn l.
Proof.
  induction l as [|c l IH]; [reflexivity|].
  cbn [forallb]. intros H. apply andb_true_iff in H as [Hc Hl].
  cbn [total sleptIn fold_right]. fold (total sleepWeights l) (sleptIn l).
  rewrite (IH Hl). destruct c; cbn; try lia.
  cbn in Hc. destruct (d =? 5 * Second)%Z eqn:H5.
  - apply Z.eqb_eq in H5. lia.
  - cbn in Hc. rewrite Hc. apply Z.eqb_eq in Hc. lia.
Qed.

(** X12. Whatever the cloud answers and whatever timeout the caller asks
    for, a run makes at most one [Insert], 25 [Get] (one for the label
    fingerprint and 24 polls), one [SetLabels], 8 [GetSerialPortOutput] and
    one [Stop], and it sleeps six minutes at most. *)
Theorem run_is_bounded rt cloud c subnet image kms timeout p w :
  let w' :=
    finalWorld (validateEgress rt cloud c subnet image kms timeout p w) in
  (countCalls isInsert w' <= countCalls isInsert w + 1)%nat
  /\ (gets w' <= gets w + 25)%nat
  /\ (countCalls isSetLabels w' <= countCalls isSetLabels w + 1)%nat
  /\ (reads w' <= reads w + 8)%nat
  /\ (stops w' <= stops w + 1)%nat
  /\ slept w' <= slept w + 6 * Minute.
Proof.
  intros w'.
  assert (forall ws (q : Call -> bool) k,
            nonnegative ws ->
            (forall call, weigh ws call = if q call then 1 else 0) ->
            runBudget ws = Z.of_nat k ->
            (countCalls q w' <= countCalls q w + k)%nat) as Hcount.
  { intros ws q k Hws Hq Hk.
    destruct (behaves_validateEgress rt cloud c subnet image kms timeout p
                ws Hws) as [_ H].
    destruct (H w) as (_ & l & Hl & _ & Ht). fold w' in Hl.
    rewrite (countCalls_extended q w w' l Hl).
    rewrite (total_counts q ws l Hq), Hk in Ht. lia. }
  assert (forall ws (q : Call -> bool),
            ofSleep5 ws = 0 -> ofSleep30 ws = 0 ->
            (forall call, isSleep call = false ->
               weigh ws call = if q call then 1 else 0) ->
            (forall d, q (Sleep d) = false) ->
            forall call, weigh ws call = if q call then 1 else 0) as Hkind.
  { intros ws q H5 H30 Hq Hs call.
    destruct call as [req|n|n fp ls|n|n|d]; try (apply Hq; reflexivity).
    rewrite (Hs d). cbn. rewrite H5, H30.
    destruct (d =? 5 * Second)%Z; [reflexivity|].
    destruct (d =? 30 * Second)%Z; reflexivity. }
  split; [|split; [|split; [|split; [|split]]]].
  - apply (Hcount insertWeights); [repeat split; cbn; lia| |reflexivity].
    apply Hkind; try reflexivity. now intros [].
  - apply (Hcount getWeights); [repeat split; cbn; lia| |reflexivity].
    apply Hkind; try reflexivity. now intros [].
  - apply (Hcount setLabelsWeights); [repeat split; cbn; lia| |reflexivity].
    apply Hkind; try reflexivity. now intros [].
  - apply (Hcount readWeights); [repeat split; cbn; lia| |reflexivity].
    apply Hkind; try reflexivity. now intros [].
  - apply (Hcount stopWeights); [repeat split; cbn; lia| |reflexivity].
    apply Hkind; try reflexivity. now intros [].
  - assert (nonnegative sleepWeights) as Hws
      by (repeat split; cbn; unfold Second; lia).
    destruct (behaves_validateEgress rt cloud c subnet image kms timeout p
                sleepWeights Hws) as [_ H].
    destruct (H w) as (_ & l & Hl & Hok & Ht). fold w' in Hl.
    rewrite (slept_extended w w' l Hl), <- (total_slept _ l Hok).
    unfold runBudget in Ht. cbn in Ht. unfold Minute, Second in *. lia.
Qed.

(** ** How the two polls can end *)

Lemma instanceCondition_cases cloud name w :
  exists done err,
    instanceCondition cloud name w = Returns (done, err) (called (Get name) w)
    /\ match err with
       | Some e =>
           (exists cause, e = ErrAlreadyExists name cause)
           \/ (exists cause, e = ErrMissingPermissions cause)
       | None =>
           done = true ->
           exists inst,
             getResp cloud (gets w) = inr inst /\ Status inst = "RUNNING"
       end.
Proof.
  destruct (getResp cloud (gets w)) as [e|inst] eqn:Hg.
  - exists false, (Some (ErrMissingPermissions (Some e))).
    split; [apply (instanceCondition_error cloud name w e Hg)|].
    right. now eexists.
  - unfold instanceCondition.
    rewrite (bind_Returns _ _ _ _ _ (describe_status cloud name w inst Hg)).
    destruct (inList (Status inst) _).
    + eexists _, _. split; [reflexivity|]. left. now eexists.
    + cbn [fst snd].
      destruct (String.eqb (Status inst) "RUNNING") eqn:Hr.
      { exists true, None. split; [reflexivity|]. intros _.
        exists inst. split; [reflexivity|]. now apply String.eqb_eq. }
      destruct (String.eqb (Status inst) "FATAL").
      { eexists _, _. split; [reflexivity|]. left. now eexists. }
      destruct (String.eqb (Status inst) "PERMISSION DENIED").
      { eexists _, _. split; [reflexivity|]. right. now eexists. }
      exists false, None. split; [reflexivity|]. discriminate.
Qed.

(** X13. The readiness wait always returns, and leaves the result alone. It
    reports success only when the last [Get] it made answered RUNNING. When
    it fails, its error is the timeout, the already-exists error or the
    missing-permissions error: it never hands on a bare error of the
    describe call (the return of line 219 is never taken with an error). *)
Theorem wait_outcomes cloud name w :
  exists r w',
    waitForComputeServiceInstanceCompletion cloud name w = Returns r w'
    /\ output w' = output w
    /\ match r with
       | None =>
           (gets w < gets w')%nat
           /\ exists inst,
                getResp cloud (gets w' - 1) = inr inst
                /\ Status inst = "RUNNING"
       | Some e =>
           e = ErrPollTimeout
           \/ (exists cause, e = ErrAlreadyExists name cause)
           \/ (exists cause, e = ErrMissingPermissions cause)
       end.
Proof.
  unfold waitForComputeServiceInstanceCompletion, PollImmediate.
  generalize (pollTicks (5 * Second) (2 * Minute)) as n. intros n. revert w.
  induction n as [|n IH]; intros w.
  - exists (Some ErrPollTimeout), w. repeat split. now left.
  - cbn [pollLoop].
    destruct (instanceCondition_cases cloud name w) as (done & err & Hc & Hk).
    rewrite (bind_Returns _ _ _ _ _ Hc).
    destruct err as [e|].
    + exists (Some e), (called (Get name) w).
      split; [now destruct done|]. split; [reflexivity|now right].
    + destruct done.
      * exists None, (called (Get name) w). split; [reflexivity|].
        split; [reflexivity|]. rewrite gets_called_Get.
        split; [lia|]. destruct (Hk eq_refl) as (inst & Hg & Hs).
        exists inst. split; [|exact Hs].
        now replace (S (gets w) - 1)%nat with (gets w) by lia.
      * unfold record at 1, mbind at 1, M_bind at 1.
        destruct (IH (mkWorld (output (called (Get name) w))
                        (calls (called (Get name) w) ++ [Sleep (5 * Second)])))
          as (r & w' & Hr & Ho & Hres).
        exists r, w'. split; [exact Hr|]. split; [exact Ho|].
        destruct r as [e|]; [exact Hres|].
        destruct Hres as [Hlt Hinst]. split; [|exact Hinst].
        fold (called (Sleep (5 * Second)) (called (Get name) w)) in Hlt.
        rewrite gets_called_other, gets_called_Get in Hlt by reflexivity.
        lia.
Qed.




(** ** The variables of the boot script *)

(** X15. Whatever the timeout and the proxy configuration, the template
    receives the caller's values under TIMEOUT, HTTP_PROXY, HTTPS_PROXY,
    CACERT (in base64) and NOTLS (true or false); a variable that is none
    of the eleven names is not in the map, so that the mapper handed to
    [os.Expand] gives it the empty string; and [generateUserData] returns
    no error. *)
Theorem template_variables rt timeout p :
  (forall v, ~ In v templateVariables ->
     userDataVariables rt timeout p !! v = None
     /\ default EmptyString (userDataVariables rt timeout p !! v)
        = EmptyString)
  /\ userDataVariables rt timeout p !! "TIMEOUT"
     = Some (Duration_String rt timeout)
  /\ userDataVariables rt timeout p !! "HTTP_PROXY" = Some (HttpProxy p)
  /\ userDataVariables rt timeout p !! "HTTPS_PROXY" = Some (HttpsProxy p)
  /\ userDataVariables rt timeout p !! "CACERT"
     = Some (base64_EncodeToString rt (Cacert p))
  /\ userDataVariables rt timeout p !! "NOTLS"
     = Some (if NoTls p then "true" else "false")
  /\ snd (generateUserData rt (userDataVariables rt timeout p)) = None.
Proof.
  split; [|repeat split;
           unfold userDataVariables;
           repeat (rewrite lookup_insert_ne by discriminate);
           try apply lookup_insert_eq].
  intros v Hv.
  assert (userDataVariables rt timeout p !! v = None) as H.
  { unfold userDataVariables.
    repeat (rewrite lookup_insert_ne
              by (intros <-; apply Hv; unfold templateVariables; cbn; tauto)).
    apply lookup_empty. }
  split; [exact H|]. now rewrite H.
Qed.

(** ** The scanned text is one line *)















Lemma run_only_adds_to_the_result_witness :
  exists out w',
    Scenario.run Scenario.probeFinds = Returns out w'
    /\ out = output w'
    /\ failures out = ["Unable to reach host1.example.com"].
Proof.
  destruct (run_only_adds_to_the_result Scenario.rt Scenario.probeFinds
              Scenario.client "subnet-1" "" "" Scenario.timeout Scenario.proxy
              (startWorld Scenario.emptyOutput)) as [_ Hout].
  destruct (Scenario.run Scenario.probeFinds) as [out w'|w'] eqn:E.
  - exists out, w'. split; [reflexivity|].
    split; [exact (Hout out w' E)|].
    vm_compute in E. now injection E as <- _.
  - vm_compute in E. discriminate E.
Defined.

Lemma template_variables_witness :
  ~ In "GCP_REGION" templateVariables
  /\ default EmptyString
       (userDataVariables Scenario.rt Scenario.timeout Scenario.proxy
        !! "GCP_REGION")
     = EmptyString.
Proof.
  assert (~ In "GCP_REGION" templateVariables) as H.
  { unfold templateVariables. cbn [In].
    intros Hin. repeat (destruct Hin as [Hin|Hin]; [discriminate Hin|]).
    exact Hin. }
  split; [exact H|].
  destruct (template_variables Scenario.rt Scenario.timeout Scenario.proxy)
    as [Hmissing _].
  exact (proj2 (Hmissing "GCP_REGION" H)).
Defined.


(** ** The run of a probe that finishes *)





(** ** Recorded endpoints come from the text *)








